(** * Safe-query wrapper of the Sequelize model base class, and the Chats migration

    Shallow embedding of
      - [src/models/SubjectiveAttempt.ts], class [SequelizeModel]
        (the static helpers [findAllSafe], [createSafe], [findOneSafe],
        [findByPkSafe], [findOrCreateSafe], [getNonIndexes], [getIndexes],
        [getAttributes], [isIndex], [getAttributesCore], [getAttributesDeep],
        [filterAttributes], [addAttributesToInclude]);
      - [src/migrations/20210521101108-add_column_in_chat.js] ([up], [down]).

    JavaScript values are finite trees: plain objects are association lists in
    property order, arrays are lists, model classes are records of their
    column metadata.  In-place mutation of the options object is rendered by
    returning the updated tree, each object taken at the one place it occurs
    at. *)

From Stdlib Require Import String List ZArith Bool Lia.
From stdpp Require Import base option list strings gmap.

Local Open Scope string_scope.
Local Open Scope list_scope.
Set Warnings "-register-all".

(** ** Column metadata and model classes *)

(** [references?: string | ModelAttributeColumnReferencesOptions] *)
Inductive References : Type :=
  | RefTable (table : string)
  | RefOptions (model : option string) (key : option string).

(** The fields of [ModelAttributeColumnOptions] that the helpers read, with
    the declared type kept for documentation; an absent optional field is
    [None]. *)
Record ModelAttributeColumnOptions : Type := {
  type : string;
  allowNull : option bool;
  primaryKey : option bool;
  references : option References
}.

(** A model class: its name, [rawAttributes] in enumeration order of the own
    properties, and whether the class derives from [SequelizeModel] (only
    then does it carry the static helpers below). *)
Record ModelClass : Type := {
  name : string;
  rawAttributes : list (string * ModelAttributeColumnOptions);
  extendsSequelizeModel : bool
}.

(** Modelled from the spec: the enumeration [SequelizeAttributes] is imported
    from [./SequelizeAttributes], which is not among the sources; the spec
    gives it as the two-valued policy [WithIndexes] / [WithoutIndexes]. *)
Inductive SequelizeAttributes : Type :=
  | WithIndexes
  | WithoutIndexes.

Definition SequelizeAttributes_eqb (a b : SequelizeAttributes) : bool :=
  match a, b with
  | WithIndexes, WithIndexes => true
  | WithoutIndexes, WithoutIndexes => true
  | _, _ => false
  end.

(** A parameter declared [p = d]: the default is taken when the argument is
    omitted (or [undefined]). *)
Definition defaultArg {A : Type} (d : A) (arg : option A) : A :=
  match arg with
  | Some a => a
  | None => d
  end.

(** ** JavaScript values *)

Inductive value : Type :=
  | VUndefined
  | VNull
  | VBool (b : bool)
  | VNum (z : Z)
  | VStr (s : string)
  | VArr (items : list value)
  | VObj (fields : list (string * value))
  | VModel (m : ModelClass)
  | VFunction (fname : string).

Definition Obj : Type := list (string * value).

(** Truthiness, as tested by [if (x)], [x && y], [x || y], [x ? a : b]. *)
Definition truthy (v : value) : bool :=
  match v with
  | VUndefined | VNull => false
  | VBool b => b
  | VNum z => negb (z =? 0)%Z
  | VStr s => negb (s =? "")
  | VArr _ | VObj _ | VModel _ | VFunction _ => true
  end.

Fixpoint lookupField (k : string) (fs : Obj) : option value :=
  match fs with
  | [] => None
  | (k', v) :: fs' => if k' =? k then Some v else lookupField k fs'
  end.

(** [o[k] = v] on a plain object: overwrite the property in place when it is
    there, append it otherwise. *)
Fixpoint assign (k : string) (v : value) (fs : Obj) : Obj :=
  match fs with
  | [] => [(k, v)]
  | (k', v') :: fs' =>
      if k' =? k then (k', v) :: fs' else (k', v') :: assign k v fs'
  end.

(** The static members that [SequelizeModel] adds to a model class. *)
Definition staticHelpers : list string :=
  [ "findAllSafe"; "createSafe"; "findOneSafe"; "findByPkSafe";
    "findOrCreateSafe"; "getNonIndexes"; "getIndexes"; "getAttributes";
    "isIndex"; "getAttributesCore"; "getAttributesDeep"; "filterAttributes";
    "addAttributesToInclude" ].

(** Property read [v.k] on a truthy receiver.  Strings, numbers, booleans,
    arrays and functions have none of the properties the wrapper reads
    ([include], [model], [filterAttributes]); a model class has the static
    helpers when it derives from [SequelizeModel].  The wrapper never reads a
    property of [undefined] or [null]: every read is behind a truthiness
    test. *)
Definition getProp (v : value) (k : string) : value :=
  match v with
  | VObj fs => default VUndefined (lookupField k fs)
  | VModel m =>
      if extendsSequelizeModel m && existsb (String.eqb k) staticHelpers
      then VFunction k else VUndefined
  | _ => VUndefined
  end.

(** Property write [v.k = x].  The wrapper writes [attributes] on the options
    object and [include] on a receiver whose [include] is truthy, so the
    receiver is always a plain object. *)
Definition setProp (v : value) (k : string) (x : value) : value :=
  match v with
  | VObj fs => VObj (assign k x fs)
  | _ => v
  end.

Definition isArray (v : value) : bool :=
  match v with
  | VArr _ => true
  | _ => false
  end.

(** ** Results of the synchronous part of a call *)

Inductive JsError : Type :=
  | TypeError (message : string).

(** [OutOfFuel] is the budget of the loop below running out; it is shown
    never to be the result ([getAttributesDeep_terminates]). *)
Inductive result (A : Type) : Type :=
  | Ok (a : A)
  | Throw (e : JsError)
  | OutOfFuel.
Arguments Ok {A} a.
Arguments Throw {A} e.
Arguments OutOfFuel {A}.

Definition result_bind {A B : Type} (f : A → result B) (r : result A) : result B :=
  match r with
  | Ok a => f a
  | Throw e => Throw e
  | OutOfFuel => OutOfFuel
  end.

#[global] Instance result_mbind : MBind result := @result_bind.
#[global] Instance result_mret : MRet result := @Ok.
#[global] Instance result_fmap : FMap result :=
  λ A B f r, match r with
             | Ok a => Ok (f a)
             | Throw e => Throw e
             | OutOfFuel => OutOfFuel
             end.

(** [xs.map(f)] where [f] may throw: the first throw aborts the map. *)
Fixpoint mapArray (f : value → result value) (xs : list value) : result (list value) :=
  match xs with
  | [] => Ok []
  | x :: xs' => y ← f x; ys ← mapArray f xs'; Ok (y :: ys)
  end.

(** ** Attribute helpers of [SequelizeModel] *)

(** [!!(column.primaryKey || column.references)]: a reference given as the
    empty string is falsy. *)
Definition referencesTruthy (r : option References) : bool :=
  match r with
  | None => false
  | Some (RefTable t) => negb (t =? "")
  | Some (RefOptions _ _) => true
  end.

Definition isIndex (column : ModelAttributeColumnOptions) : bool :=
  defaultArg false (primaryKey column) || referencesTruthy (references column).

(** Body of the [for (let key in this.rawAttributes)] loop of
    [getAttributesCore]; [indexes] is [None] for [undefined]. *)
Definition getAttributesCore_step (indexes : option bool) (keys : list string)
    (entry : string * ModelAttributeColumnOptions) : list string :=
  let '(key, column) := entry in
  let keys := match indexes with
              | None => keys ++ [key]
              | Some _ => keys
              end in
  match indexes with
  | Some true => if isIndex column then keys ++ [key] else keys
  | Some false => if negb (isIndex column) then keys ++ [key] else keys
  | None => keys
  end.

Definition getAttributesCore (this : ModelClass) (indexes : option bool) : list string :=
  fold_left (getAttributesCore_step indexes) (rawAttributes this) [].

Definition getNonIndexes (this : ModelClass) : list string :=
  getAttributesCore this (Some false).

Definition getIndexes (this : ModelClass) : list string :=
  getAttributesCore this (Some true).

Definition getAttributes (this : ModelClass) : list string :=
  getAttributesCore this None.

Definition filterAttributes (this : ModelClass)
    (attributeTypes : option SequelizeAttributes) : list string :=
  let attributeTypes := defaultArg WithoutIndexes attributeTypes in
  if SequelizeAttributes_eqb attributeTypes WithIndexes
  then getAttributes this else getNonIndexes this.

(** A [string[]] as a JavaScript array value. *)
Definition stringArray (xs : list string) : value := VArr (map VStr xs).

(** ** Include rewriting *)

(** The call [target.filterAttributes(attributeTypes)]: it succeeds when the
    receiver is a model class deriving from [SequelizeModel]; on a receiver
    without a callable member of that name it raises a [TypeError].  A
    callable that a plain object brings under that name itself is not
    followed here (it is rendered as the same throw); the results that
    depend on it exclude such receivers ([ownHelper]). *)
Definition callFilterAttributes (target : value)
    (attributeTypes : SequelizeAttributes) : result value :=
  match target with
  | VModel m =>
      if extendsSequelizeModel m
      then Ok (stringArray (filterAttributes m (Some attributeTypes)))
      else Throw (TypeError "_include.filterAttributes is not a function")
  | _ => Throw (TypeError "_include.filterAttributes is not a function")
  end.

Definition addAttributesToInclude (attributeTypes : option SequelizeAttributes)
    (include : value) : result value :=
  let attributeTypes := defaultArg WithIndexes attributeTypes in
  let _include := include in
  if truthy _include
     && (truthy (getProp _include "model")
         || truthy (getProp _include "filterAttributes"))
  then
    let _include :=
      if truthy (getProp _include "model")
      then getProp _include "model" else _include in
    attributes ← callFilterAttributes _include attributeTypes;
    Ok (VObj [("model", _include); ("attributes", attributes)])
  else Ok _include.

(** The right-hand side of [opts.include = Array.isArray(opts.include) ? ... : ...]. *)
Definition rewriteInclude (attributeTypes : SequelizeAttributes)
    (include : value) : result value :=
  match include with
  | VArr items =>
      VArr <$> mapArray (addAttributesToInclude (Some attributeTypes)) items
  | _ => addAttributesToInclude (Some attributeTypes) include
  end.

(** One pass of the body of [while (opts)]: the new state of the object
    [opts] refers to. *)
Definition loopBody (attributeTypes : SequelizeAttributes) (opts : value) : result value :=
  if truthy (getProp opts "include")
  then include ← rewriteInclude attributeTypes (getProp opts "include");
       Ok (setProp opts "include" include)
  else Ok opts.

(** [while (opts) { ...; opts = opts.include }].  The function returns the
    final state of the object the cursor [opts] starts on: the body updates
    that object, the remaining iterations update the object its [include]
    now holds. *)
Fixpoint whileOpts (fuel : nat) (attributeTypes : SequelizeAttributes)
    (opts : value) : result value :=
  if truthy opts then
    match fuel with
    | O => OutOfFuel
    | S fuel' =>
        opts1 ← loopBody attributeTypes opts;
        below ← whileOpts fuel' attributeTypes (getProp opts1 "include");
        Ok (if truthy (getProp opts1 "include")
            then setProp opts1 "include" below else opts1)
    end
  else Ok opts.

(** Length of the chain of [include] properties under a value; it bounds the
    number of passes of the loop. *)
Fixpoint includeDepth (v : value) : nat :=
  match v with
  | VObj fs =>
      (fix walk (fs : list (string * value)) : nat :=
         match fs with
         | [] => O
         | (k, x) :: fs' => if k =? "include" then S (includeDepth x) else walk fs'
         end) fs
  | _ => O
  end.

(** [let opts: any = options]: an omitted argument is [undefined]. *)
Definition anyOf (options : option Obj) : value :=
  match options with
  | Some o => VObj o
  | None => VUndefined
  end.

Definition getAttributesDeep (this : ModelClass)
    (attributeTypes : option SequelizeAttributes) (options : option Obj) : result value :=
  let attributeTypes := defaultArg WithIndexes attributeTypes in
  let opts := anyOf options in
  let opts :=
    if truthy opts
    then setProp opts "attributes"
           (stringArray (filterAttributes this (Some attributeTypes)))
    else opts in
  whileOpts (S (includeDepth opts)) attributeTypes opts.

(** ** The safe-query methods *)

(** The call a safe-query method ends with; its promise is what the method
    returns. *)
Inductive OrmCall : Type :=
  | FindAll (this : ModelClass) (options : value)
  | Create (this : ModelClass) (values : value) (options : value)
  | FindOne (this : ModelClass) (options : value)
  | FindByPk (this : ModelClass) (identifier : value) (options : value)
  | FindOrCreate (this : ModelClass) (options : value).

Definition findAllSafe (this : ModelClass)
    (attributeTypes : option SequelizeAttributes) (options : option Obj) : result OrmCall :=
  let attributeTypes := defaultArg WithIndexes attributeTypes in
  filteredOptions ← getAttributesDeep this (Some attributeTypes) options;
  Ok (FindAll this filteredOptions).

Definition createSafe (this : ModelClass) (values : value)
    (attributeTypes : option SequelizeAttributes) (options : option Obj) : result OrmCall :=
  let attributeTypes := defaultArg WithIndexes attributeTypes in
  filteredOptions ← getAttributesDeep this (Some attributeTypes) options;
  Ok (Create this values filteredOptions).

Definition findOneSafe (this : ModelClass)
    (attributeTypes : option SequelizeAttributes) (options : option Obj) : result OrmCall :=
  let attributeTypes := defaultArg WithIndexes attributeTypes in
  filteredOptions ← getAttributesDeep this (Some attributeTypes) options;
  Ok (FindOne this filteredOptions).

Definition findByPkSafe (this : ModelClass)
    (attributeTypes : option SequelizeAttributes) (identifier : value)
    (options : option Obj) : result OrmCall :=
  let attributeTypes := defaultArg WithIndexes attributeTypes in
  filteredOptions ← getAttributesDeep this (Some attributeTypes) options;
  Ok (FindByPk this identifier filteredOptions).

Definition findOrCreateSafe (this : ModelClass)
    (attributeTypes : option SequelizeAttributes) (options : option Obj) : result OrmCall :=
  let attributeTypes := defaultArg WithIndexes attributeTypes in
  filteredOptions ← getAttributesDeep this (Some attributeTypes) options;
  Ok (FindOrCreate this filteredOptions).

(** The options argument of the delegated call. *)
Definition handedOptions (c : OrmCall) : value :=
  match c with
  | FindAll _ o | Create _ _ o | FindOne _ o | FindByPk _ _ o | FindOrCreate _ o => o
  end.

(** An invocation of one of the five methods, to range over all of them. *)
Inductive SafeCall : Type :=
  | CallFindAllSafe (attributeTypes : option SequelizeAttributes) (options : option Obj)
  | CallCreateSafe (values : value) (attributeTypes : option SequelizeAttributes)
      (options : option Obj)
  | CallFindOneSafe (attributeTypes : option SequelizeAttributes) (options : option Obj)
  | CallFindByPkSafe (attributeTypes : option SequelizeAttributes) (identifier : value)
      (options : option Obj)
  | CallFindOrCreateSafe (attributeTypes : option SequelizeAttributes)
      (options : option Obj).

Definition invoke (this : ModelClass) (call : SafeCall) : result OrmCall :=
  match call with
  | CallFindAllSafe a o => findAllSafe this a o
  | CallCreateSafe v a o => createSafe this v a o
  | CallFindOneSafe a o => findOneSafe this a o
  | CallFindByPkSafe a i o => findByPkSafe this a i o
  | CallFindOrCreateSafe a o => findOrCreateSafe this a o
  end.

Definition policyArg (call : SafeCall) : option SequelizeAttributes :=
  match call with
  | CallFindAllSafe a _ | CallCreateSafe _ a _ | CallFindOneSafe a _
  | CallFindByPkSafe a _ _ | CallFindOrCreateSafe a _ => a
  end.

Definition optionsArg (call : SafeCall) : option Obj :=
  match call with
  | CallFindAllSafe _ o | CallCreateSafe _ _ o | CallFindOneSafe _ o
  | CallFindByPkSafe _ _ o | CallFindOrCreateSafe _ o => o
  end.

Definition withPolicy (a : option SequelizeAttributes) (call : SafeCall) : SafeCall :=
  match call with
  | CallFindAllSafe _ o => CallFindAllSafe a o
  | CallCreateSafe v _ o => CallCreateSafe v a o
  | CallFindOneSafe _ o => CallFindOneSafe a o
  | CallFindByPkSafe _ i o => CallFindByPkSafe a i o
  | CallFindOrCreateSafe _ o => CallFindOrCreateSafe a o
  end.

(** ** Sample models *)

Definition column (ty : string) (pk : option bool) (ref : option References)
  : ModelAttributeColumnOptions :=
  {| type := ty; allowNull := None; primaryKey := pk; references := ref |}.

(** [User] of the spec's scenario: [userId] (primary key), [email], [password]. *)
Definition User : ModelClass :=
  {| name := "User";
     rawAttributes :=
       [ ("userId", column "INTEGER" (Some true) None);
         ("email", column "STRING" None None);
         ("password", column "STRING" None None) ];
     extendsSequelizeModel := true |}.

(** [Meeting] as declared in the sources. *)
Definition Meeting : ModelClass :=
  {| name := "Meeting";
     rawAttributes :=
       [ ("_meetingId", column "INTEGER.UNSIGNED" (Some true) None);
         ("meetingId", column "STRING(36)" None None);
         ("createdBy", column "INTEGER.UNSIGNED" None
            (Some (RefOptions (Some "User") None)));
         ("status", column "ENUM" None None);
         ("scheduledAt", column "DATE" None None);
         ("createdAt", column "DATE" None None);
         ("updatedAt", column "DATE" None None) ];
     extendsSequelizeModel := true |}.

(** A model class that extends the ORM's [Model] directly. *)
Definition PlainModel : ModelClass :=
  {| name := "Plain";
     rawAttributes := [ ("id", column "INTEGER" (Some true) None) ];
     extendsSequelizeModel := false |}.

(** [Role] as declared in the sources. *)
Definition Role : ModelClass :=
  {| name := "Role";
     rawAttributes :=
       [ ("_roleId", column "TINYINT.UNSIGNED" (Some true) None);
         ("roleId", column "STRING(36)" None None);
         ("roleName", column "STRING(70)" None None);
         ("createdAt", column "DATE" None None);
         ("updatedAt", column "DATE" None None) ];
     extendsSequelizeModel := true |}.

(** ** The condition under which include rewriting cannot throw *)

(** The test of [addAttributesToInclude]. *)
Definition rewritable (include : value) : bool :=
  truthy include
  && (truthy (getProp include "model") || truthy (getProp include "filterAttributes")).

Definition isSafeModel (v : value) : bool :=
  match v with
  | VModel m => extendsSequelizeModel m
  | _ => false
  end.

(** An include entry names, if anything, a model class deriving from
    [SequelizeModel]. *)
Definition entrySafe (include : value) : bool :=
  if rewritable include
  then isSafeModel (if truthy (getProp include "model")
                    then getProp include "model" else include)
  else true.

(** Every include entry the loop reaches is [entrySafe]. *)
Fixpoint includesSafe (v : value) : bool :=
  match v with
  | VObj fs =>
      (fix walk (fs : list (string * value)) : bool :=
         match fs with
         | [] => true
         | (k, x) :: fs' =>
             if k =? "include" then
               match x with
               | VArr items => forallb entrySafe items
               | _ => if rewritable x then entrySafe x else includesSafe x
               end
             else walk fs'
         end) fs
  | _ => true
  end.

(** ** The promise a safe-query method returns *)

Inductive Settled (Row Failure : Type) : Type :=
  | Fulfilled (rows : Row)
  | RejectedByEngine (failure : Failure)
  | RejectedByWrapper (e : JsError)
  | Unsettled.
Arguments Fulfilled {Row Failure} rows.
Arguments RejectedByEngine {Row Failure} failure.
Arguments RejectedByWrapper {Row Failure} e.
Arguments Unsettled {Row Failure}.

Section Delegation.
Context {Row Failure : Type}.

(** The ORM's native query methods: each call ends fulfilled or rejected. *)
Variable engine : OrmCall → Failure + Row.

Definition ofEngine (x : Failure + Row) : Settled Row Failure :=
  match x with
  | inl f => RejectedByEngine f
  | inr r => Fulfilled r
  end.

(** The methods are [async] and return the delegated call: an exception
    thrown before the call rejects the promise, otherwise the promise is
    the engine's. *)
Definition settle (r : result OrmCall) : Settled Row Failure :=
  match r with
  | Ok c => ofEngine (engine c)
  | Throw e => RejectedByWrapper e
  | OutOfFuel => Unsettled
  end.

Definition runSafe (this : ModelClass) (call : SafeCall) : Settled Row Failure :=
  settle (invoke this call).
End Delegation.

(** ** The policy in the spec's words *)

Definition flaggedPrimaryKey (c : ModelAttributeColumnOptions) : bool :=
  match primaryKey c with
  | Some true => true
  | _ => false
  end.

Definition carriesReference (c : ModelAttributeColumnOptions) : bool :=
  match references c with
  | Some (RefTable "") => false
  | Some _ => true
  | None => false
  end.

(** [WithIndexes]: all declared columns; [WithoutIndexes]: all columns except
    primary and foreign keys. *)
Definition policyColumns (m : ModelClass) (p : SequelizeAttributes) : list string :=
  match p with
  | WithIndexes => map fst (rawAttributes m)
  | WithoutIndexes =>
      map fst (List.filter (λ e, negb (flaggedPrimaryKey e.2 || carriesReference e.2))
                           (rawAttributes m))
  end.

(** Property names of an object are pairwise distinct. *)
Definition distinctColumns (m : ModelClass) : Prop :=
  NoDup (map fst (rawAttributes m)).

(** Which columns [getAttributesCore] keeps. *)
Definition kept (indexes : option bool) (entry : string * ModelAttributeColumnOptions) : bool :=
  match indexes with
  | None => true
  | Some true => isIndex entry.2
  | Some false => negb (isIndex entry.2)
  end.

Ltac unfold_result :=
  unfold mbind, result_mbind, result_bind, fmap, result_fmap, mret, result_mret in *.

(** The include entry is the model class [m], or a descriptor whose [model]
    is [m]. *)
Definition namesModel (include : value) (m : ModelClass) : Prop :=
  include = VModel m
  ∨ ∃ fs, include = VObj fs ∧ lookupField "model" fs = Some (VModel m).

(** [{ model, attributes }] with the model's own list under the policy. *)
Definition rewrittenInclude (m : ModelClass) (p : SequelizeAttributes) : value :=
  VObj [("model", VModel m); ("attributes", stringArray (policyColumns m p))].

(** Following [include] [d] times from a value. *)
Fixpoint descend (d : nat) (v : value) : value :=
  match d with
  | O => v
  | S d' => descend d' (getProp v "include")
  end.

(** The first [d] includes under [v] are single entries that
    [addAttributesToInclude] leaves alone: the loop enters each of them. *)
Fixpoint entered (d : nat) (v : value) : Prop :=
  match d with
  | O => True
  | S d' =>
      truthy (getProp v "include") = true
      ∧ isArray (getProp v "include") = false
      ∧ rewritable (getProp v "include") = false
      ∧ entered d' (getProp v "include")
  end.

(** The options object is the only caller's object the loop writes to: its
    [include] is absent or falsy, a collection, an entry that is replaced by
    a fresh object, or an entry without a truthy [include] of its own.  (A
    single include that is entered is written to in place, and the caller
    may hold it under another key as well.) *)
Definition writesRootOnly (o : Obj) : bool :=
  let include := getProp (VObj o) "include" in
  negb (truthy include) || isArray include || rewritable include
  || negb (truthy (getProp include "include")).

(** The value [addAttributesToInclude] would call [filterAttributes] on is a
    plain object that brings a callable of its own under that name. *)
Definition ownHelper (include : value) : bool :=
  match (if truthy (getProp include "model")
         then getProp include "model" else include) with
  | VObj fs =>
      match lookupField "filterAttributes" fs with
      | Some (VFunction _) | Some (VModel _) => true
      | _ => false
      end
  | _ => false
  end.

(** No include entry the loop reaches has such a callable: a
    [filterAttributes] that is called is the static helper of a model
    class. *)
Fixpoint helpersOfModelsOnly (v : value) : bool :=
  match v with
  | VObj fs =>
      (fix walk (fs : list (string * value)) : bool :=
         match fs with
         | [] => true
         | (k, x) :: fs' =>
             if k =? "include" then
               match x with
               | VArr items => forallb (λ entry, negb (ownHelper entry)) items
               | _ => if rewritable x then negb (ownHelper x)
                      else helpersOfModelsOnly x
               end
             else walk fs'
         end) fs
  | _ => true
  end.

(** ** Sample options *)

(** [{ where: { email: 'a@b.com' } }] *)
Definition whereEmail : Obj :=
  [("where", VObj [("email", VStr "a@b.com")])].

(** [{ include: { model: Meeting, include: { model: User } } }] *)
Definition nestedInclude : Obj :=
  [("include", VObj [("model", VModel Meeting);
                     ("include", VObj [("model", VModel User)])])].

(** [{ include: [ { association: 'participants', include: User } ] }] *)
Definition nestedInCollection : Obj :=
  [("include", VArr [VObj [("association", VStr "participants");
                           ("include", VModel User)]])].

(** [{ where: { roleName: 'admin' }, limit: 10,
       include: { model: Meeting, where: { status: 'live' }, required: true } }] *)
Definition includeWithWhere : Obj :=
  [("where", VObj [("roleName", VStr "admin")]);
   ("limit", VNum 10);
   ("include", VObj [("model", VModel Meeting);
                     ("where", VObj [("status", VStr "live")]);
                     ("required", VBool true)])].

(** [{ association: 'participants', include: User }] *)
Definition associationWithInclude : value :=
  VObj [("association", VStr "participants"); ("include", VModel User)].

(** [{ include: { model: PlainModel } }] *)
Definition plainInclude : Obj :=
  [("include", VObj [("model", VModel PlainModel)])].

(** [{ include: [ Meeting, 'participants', { model: User } ] }] *)
Definition mixedCollection : Obj :=
  [("include", VArr [VModel Meeting; VStr "participants";
                     VObj [("model", VModel User)]])].

(** ** The Chats migration *)

Module Migration.

Inductive DataType : Type :=
  | ENUM (values : list string)
  | SqlType (sql : string).

(** The attribute object passed to [addColumn]. *)
Record ColumnDefinition : Type := {
  dataType : DataType;
  defaultValue : option string
}.

Inductive QueryError : Type :=
  | NoSuchTable (table : string)
  | DuplicateColumn (table column : string)
  | NoSuchColumn (table column : string).

(** The two operations of the ORM's [QueryInterface] that the migration
    calls, over a database state [DB]; a rejected promise is [inl]. *)
Record QueryInterface (DB : Type) : Type := {
  addColumn : string → string → ColumnDefinition → DB → QueryError + DB;
  removeColumn : string → string → DB → QueryError + DB
}.
Arguments addColumn {DB} _ _ _ _ _.
Arguments removeColumn {DB} _ _ _ _.

Section Chats.
(** [ChatTypesEnum] is imported from [../types], which is not among the
    sources. *)
Variable ChatTypesEnum : list string.
Context {DB : Type}.
Variable queryInterface : QueryInterface DB.

Definition up (db : DB) : QueryError + DB :=
  addColumn queryInterface "Chats" "type"
    {| dataType := ENUM ChatTypesEnum; defaultValue := Some "chat" |} db.

Definition down (db : DB) : QueryError + DB :=
  removeColumn queryInterface "Chats" "type" db.

(** The runner applies [down] to the state [up] left. *)
Definition upThenDown (db : DB) : QueryError + DB :=
  match up db with
  | inr db' => down db'
  | inl e => inl e
  end.
End Chats.

(** A table is its columns in declaration order. *)
Definition hasColumn (column : string) (cols : list (string * ColumnDefinition)) : bool :=
  existsb (λ c, c.1 =? column) cols.

(** Modelled from the spec: the query interface belongs to the ORM, not to
    the repository; the spec says of it that [up] "adds a column" and
    [down] "removes it".  [addColumn] appends the column to an existing
    table that has no column of that name, [removeColumn] drops the named
    column of an existing table.  The spec is silent on calls outside these
    cases; they are taken as rejected here, and no result below is about
    them. *)
Definition sqlInterface : QueryInterface (gmap string (list (string * ColumnDefinition))) :=
  {| addColumn table column def db :=
       match db !! table with
       | None => inl (NoSuchTable table)
       | Some cols =>
           if hasColumn column cols then inl (DuplicateColumn table column)
           else inr (<[table := cols ++ [(column, def)]]> db)
       end;
     removeColumn table column db :=
       match db !! table with
       | None => inl (NoSuchTable table)
       | Some cols =>
           if hasColumn column cols
           then inr (<[table := List.filter (λ c, negb (c.1 =? column)) cols]> db)
           else inl (NoSuchColumn table column)
       end |}.

(** A database whose [Chats] table predates the migration. *)
Definition sampleDb : gmap string (list (string * ColumnDefinition)) :=
  {[ "Chats" := [ ("chatId", {| dataType := SqlType "INTEGER"; defaultValue := None |});
                  ("message", {| dataType := SqlType "TEXT"; defaultValue := None |}) ] ]}.

End Migration.

(** * Properties *)

(** ** Objects: reading after writing *)

Lemma lookupField_assign_eq (k : string) (v : value) (fs : Obj) :
  lookupField k (assign k v fs) = Some v.
Proof.
  induction fs as [|[k' v'] fs IH]; simpl.
  - now rewrite String.eqb_refl.
  - destruct (k' =? k) eqn:E; simpl; rewrite E; auto.
Qed.

Lemma lookupField_assign_ne (k k' : string) (v : value) (fs : Obj) :
  k ≠ k' → lookupField k' (assign k v fs) = lookupField k' fs.
Proof.
  intros Hne. induction fs as [|[k0 v0] fs IH]; simpl.
  - destruct (k =? k') eqn:E; [apply String.eqb_eq in E; contradiction | reflexivity].
  - destruct (k0 =? k) eqn:E; simpl.
    + apply String.eqb_eq in E. subst k0.
      destruct (k =? k') eqn:E'; [apply String.eqb_eq in E'; contradiction | reflexivity].
    + destruct (k0 =? k'); auto.
Qed.

Lemma getProp_setProp_ne (v x : value) (k k' : string) :
  k ≠ k' → getProp (setProp v k x) k' = getProp v k'.
Proof.
  intros Hne. destruct v; simpl; try reflexivity.
  now rewrite lookupField_assign_ne.
Qed.

Lemma getProp_assign_eq (fs : Obj) (x : value) (k : string) :
  getProp (VObj (assign k x fs)) k = x.
Proof. simpl. now rewrite lookupField_assign_eq. Qed.

Lemma getProp_assign_ne (fs : Obj) (x : value) (k k' : string) :
  k ≠ k' → getProp (VObj (assign k x fs)) k' = getProp (VObj fs) k'.
Proof. intros H. simpl. now rewrite lookupField_assign_ne. Qed.

(** Only a plain object can hold a truthy property among those the wrapper
    reads on options. *)
Lemma truthy_include_inv (v : value) :
  truthy (getProp v "include") = true →
  ∃ fs, v = VObj fs ∧ lookupField "include" fs = Some (getProp v "include").
Proof.
  destruct v; simpl; try discriminate.
  - destruct (lookupField "include" fields) eqn:E; simpl; [eauto | discriminate].
  - destruct (extendsSequelizeModel m); simpl; discriminate.
Qed.

Lemma includeDepth_VObj (fs : Obj) :
  includeDepth (VObj fs) =
  match lookupField "include" fs with
  | Some x => S (includeDepth x)
  | None => O
  end.
Proof.
  induction fs as [|[k v] fs IH]; simpl; [reflexivity|].
  destruct (k =? "include"); [reflexivity | exact IH].
Qed.

Lemma includesSafe_VObj (fs : Obj) :
  includesSafe (VObj fs) =
  match lookupField "include" fs with
  | Some (VArr items) => forallb entrySafe items
  | Some x => if rewritable x then entrySafe x else includesSafe x
  | None => true
  end.
Proof.
  induction fs as [|[k v] fs IH]; simpl; [reflexivity|].
  destruct (k =? "include"); [now destruct v | exact IH].
Qed.

(** ** The result monad *)

Lemma bind_Ok_inv {A B : Type} (m : result A) (f : A → result B) (b : B) :
  (x ← m; f x) = Ok b → ∃ a, m = Ok a ∧ f a = Ok b.
Proof. unfold_result. destruct m; try discriminate. eauto. Qed.

Lemma mapArray_not_OutOfFuel (f : value → result value) (xs : list value) :
  (∀ x, f x ≠ OutOfFuel) → mapArray f xs ≠ OutOfFuel.
Proof.
  intros Hf. induction xs as [|x xs IH]; simpl; [discriminate|].
  unfold_result. specialize (Hf x).
  destruct (f x); try congruence.
  destruct (mapArray f xs); congruence.
Qed.

Lemma mapArray_Ok (f : value → result value) (xs : list value) :
  Forall (λ x, ∃ y, f x = Ok y) xs → ∃ ys, mapArray f xs = Ok ys.
Proof.
  induction 1 as [|x xs [y Hy] _ [ys IH]]; simpl; [eauto|].
  unfold_result. rewrite Hy, IH. eauto.
Qed.

(** ** Include rewriting, case by case *)

Lemma callFilterAttributes_not_OutOfFuel (target : value) (a : SequelizeAttributes) :
  callFilterAttributes target a ≠ OutOfFuel.
Proof.
  destruct target; simpl; try discriminate.
  destruct (extendsSequelizeModel m); discriminate.
Qed.

Lemma addAttributesToInclude_skip (a : option SequelizeAttributes) (include : value) :
  rewritable include = false → addAttributesToInclude a include = Ok include.
Proof.
  unfold rewritable, addAttributesToInclude. intros H. now rewrite H.
Qed.

Lemma addAttributesToInclude_rewrite (a : option SequelizeAttributes) (include : value) :
  rewritable include = true →
  addAttributesToInclude a include =
  let target := if truthy (getProp include "model")
                then getProp include "model" else include in
  attributes ← callFilterAttributes target (defaultArg WithIndexes a);
  Ok (VObj [("model", target); ("attributes", attributes)]).
Proof.
  unfold rewritable, addAttributesToInclude. intros H. now rewrite H.
Qed.

Lemma addAttributesToInclude_not_OutOfFuel (a : option SequelizeAttributes) (include : value) :
  addAttributesToInclude a include ≠ OutOfFuel.
Proof.
  destruct (rewritable include) eqn:E.
  - rewrite addAttributesToInclude_rewrite by exact E. cbv zeta. unfold_result.
    match goal with
    | |- context [callFilterAttributes ?t ?p] =>
        pose proof (callFilterAttributes_not_OutOfFuel t p);
        destruct (callFilterAttributes t p); congruence
    end.
  - rewrite addAttributesToInclude_skip by exact E. discriminate.
Qed.

Lemma addAttributesToInclude_safe (a : option SequelizeAttributes) (include : value) :
  entrySafe include = true → ∃ r, addAttributesToInclude a include = Ok r.
Proof.
  unfold entrySafe. destruct (rewritable include) eqn:E; intros Hs.
  - rewrite addAttributesToInclude_rewrite by exact E. cbv zeta.
    destruct (if truthy (getProp include "model")
              then getProp include "model" else include) as [| | | | | | |m|];
      try discriminate.
    simpl in Hs. simpl. rewrite Hs. unfold_result. eauto.
  - rewrite addAttributesToInclude_skip by exact E. eauto.
Qed.

Lemma rewriteInclude_not_OutOfFuel (a : SequelizeAttributes) (include : value) :
  rewriteInclude a include ≠ OutOfFuel.
Proof.
  destruct include; simpl; try apply addAttributesToInclude_not_OutOfFuel.
  unfold_result.
  pose proof (mapArray_not_OutOfFuel (addAttributesToInclude (Some a)) items
                (addAttributesToInclude_not_OutOfFuel (Some a))).
  destruct (mapArray _ items); congruence.
Qed.

(** What the rewritten [include] can be: the entry itself, left alone, or a
    value without an [include] of its own (an array, or a fresh
    [{ model, attributes }]). *)
Lemma rewriteInclude_Ok (a : SequelizeAttributes) (include r : value) :
  rewriteInclude a include = Ok r →
  (r = include ∧ rewritable include = false ∧ isArray include = false)
  ∨ (includeDepth r = O ∧ includesSafe r = true
     ∧ truthy (getProp r "include") = false).
Proof.
  intros H.
  destruct (isArray include) eqn:Ha.
  - destruct include; try discriminate. simpl in H. unfold_result.
    destruct (mapArray _ items); try discriminate.
    injection H as <-. right. auto.
  - assert (Hadd : addAttributesToInclude (Some a) include = Ok r)
      by (destruct include; try discriminate; exact H).
    destruct (rewritable include) eqn:E.
    + rewrite addAttributesToInclude_rewrite in Hadd by exact E. cbv zeta in Hadd.
      apply bind_Ok_inv in Hadd as (attrs & _ & [= <-]). right. auto.
    + rewrite addAttributesToInclude_skip in Hadd by exact E.
      injection Hadd as <-. left. auto.
Qed.

Lemma rewriteInclude_safe (a : SequelizeAttributes) (fs : Obj) (include : value) :
  lookupField "include" fs = Some include →
  includesSafe (VObj fs) = true →
  ∃ r, rewriteInclude a include = Ok r
       ∧ (rewritable include = false → isArray include = false →
          includesSafe include = true).
Proof.
  intros Hl Hs. rewrite includesSafe_VObj, Hl in Hs.
  destruct (isArray include) eqn:Ha.
  - destruct include; try discriminate. simpl.
    destruct (mapArray_Ok (addAttributesToInclude (Some a)) items) as [ys Hys].
    + apply Forall_forall. intros x Hx.
      apply addAttributesToInclude_safe.
      rewrite forallb_forall in Hs. apply Hs. now apply list_elem_of_In.
    + rewrite Hys. unfold_result. eexists; split; [reflexivity | discriminate].
  - assert (Hs' : (if rewritable include then entrySafe include
                   else includesSafe include) = true)
      by (destruct include; try discriminate; exact Hs).
    assert (Hr : rewriteInclude a include = addAttributesToInclude (Some a) include)
      by (destruct include; try discriminate; reflexivity).
    rewrite Hr. destruct (rewritable include) eqn:E.
    + destruct (addAttributesToInclude_safe (Some a) include Hs') as [r Hr'].
      exists r. split; [exact Hr' | discriminate].
    + rewrite addAttributesToInclude_skip by exact E. eauto.
Qed.

(** ** The loop *)

Lemma whileOpts_unfold (n : nat) (a : SequelizeAttributes) (opts : value) :
  whileOpts n a opts =
  if truthy opts then
    match n with
    | O => OutOfFuel
    | S n' =>
        opts1 ← loopBody a opts;
        below ← whileOpts n' a (getProp opts1 "include");
        Ok (if truthy (getProp opts1 "include")
            then setProp opts1 "include" below else opts1)
    end
  else Ok opts.
Proof. destruct n; reflexivity. Qed.

Lemma whileOpts_falsy (n : nat) (a : SequelizeAttributes) (opts : value) :
  truthy opts = false → whileOpts n a opts = Ok opts.
Proof. intros H. rewrite whileOpts_unfold. now rewrite H. Qed.

(** The state after one pass: either nothing was to be rewritten, or the
    receiver is a plain object whose [include] now holds the rewritten
    value. *)
Lemma loopBody_Ok (a : SequelizeAttributes) (opts opts1 : value) :
  loopBody a opts = Ok opts1 →
  (truthy (getProp opts "include") = false ∧ opts1 = opts)
  ∨ (∃ fs r, opts = VObj fs
             ∧ lookupField "include" fs = Some (getProp opts "include")
             ∧ truthy (getProp opts "include") = true
             ∧ rewriteInclude a (getProp opts "include") = Ok r
             ∧ opts1 = VObj (assign "include" r fs)).
Proof.
  unfold loopBody. destruct (truthy (getProp opts "include")) eqn:E.
  - intros H. apply bind_Ok_inv in H as (r & Hr & [= <-]).
    destruct (truthy_include_inv opts E) as (fs & -> & Hl).
    right. exists fs, r. auto.
  - intros [= <-]. left. auto.
Qed.

Lemma loopBody_not_OutOfFuel (a : SequelizeAttributes) (opts : value) :
  loopBody a opts ≠ OutOfFuel.
Proof.
  unfold loopBody. destruct (truthy (getProp opts "include")); [|discriminate].
  unfold_result.
  pose proof (rewriteInclude_not_OutOfFuel a (getProp opts "include")).
  destruct (rewriteInclude a (getProp opts "include")); congruence.
Qed.

(** A budget above the depth of the [include] chain is never used up. *)
Lemma whileOpts_terminates (n : nat) (a : SequelizeAttributes) (opts : value) :
  includeDepth opts < n → whileOpts n a opts ≠ OutOfFuel.
Proof.
  revert opts. induction n as [|n IH]; intros opts Hd; [lia|].
  rewrite whileOpts_unfold. destruct (truthy opts); [|discriminate].
  pose proof (loopBody_not_OutOfFuel a opts) as Hb.
  destruct (loopBody a opts) as [opts1| |] eqn:Eb; unfold_result; try congruence.
  assert (Hnext : whileOpts n a (getProp opts1 "include") ≠ OutOfFuel).
  { apply loopBody_Ok in Eb as [[Hf ->]|(fs & r & -> & Hl & Ht & Hr & ->)].
    - rewrite whileOpts_falsy by exact Hf. discriminate.
    - rewrite getProp_assign_eq. apply IH.
      rewrite includeDepth_VObj, Hl in Hd.
      apply rewriteInclude_Ok in Hr as [(-> & _ & _)|(Hz & _ & _)]; lia. }
  destruct (whileOpts n a (getProp opts1 "include")); congruence.
Qed.

(** With every reachable include entry safe, the loop ends without
    throwing. *)
Lemma whileOpts_safe (n : nat) (a : SequelizeAttributes) (opts : value) :
  includeDepth opts < n → includesSafe opts = true →
  ∃ r, whileOpts n a opts = Ok r.
Proof.
  revert opts. induction n as [|n IH]; intros opts Hd Hs; [lia|].
  rewrite whileOpts_unfold. destruct (truthy opts); [|eauto].
  unfold loopBody. destruct (truthy (getProp opts "include")) eqn:Ht.
  - destruct (truthy_include_inv opts Ht) as (fs & -> & Hl).
    destruct (rewriteInclude_safe a fs _ Hl Hs) as (r & Hr & Hkeep).
    rewrite Hr. unfold_result. cbn [setProp]. rewrite getProp_assign_eq.
    rewrite includeDepth_VObj, Hl in Hd.
    destruct (IH r) as [below Hbelow].
    + apply rewriteInclude_Ok in Hr as [(-> & _ & _)|(Hz & _ & _)]; lia.
    + apply rewriteInclude_Ok in Hr as [(-> & Hw & Ha)|(_ & Hok & _)]; auto.
    + rewrite Hbelow. eauto.
  - unfold_result. rewrite whileOpts_falsy by exact Ht. rewrite Ht. eauto.
Qed.

(** The loop touches no property of its receiver other than [include]. *)
Lemma whileOpts_frame (n : nat) (a : SequelizeAttributes) (opts r : value) (k : string) :
  whileOpts n a opts = Ok r → k ≠ "include" → getProp r k = getProp opts k.
Proof.
  rewrite whileOpts_unfold. intros H Hk.
  destruct (truthy opts); [|now injection H as <-].
  destruct n as [|n]; [discriminate|].
  apply bind_Ok_inv in H as (opts1 & Hb & H).
  apply bind_Ok_inv in H as (below & _ & [= <-]).
  assert (H1 : getProp opts1 k = getProp opts k).
  { apply loopBody_Ok in Hb as [[_ ->]|(fs & r' & -> & _ & _ & _ & ->)]; [reflexivity|].
    apply getProp_assign_ne. congruence. }
  destruct (truthy (getProp opts1 "include")); [|exact H1].
  rewrite getProp_setProp_ne by congruence. exact H1.
Qed.

(** ** The attribute helpers as filters of [rawAttributes] *)

Lemma getAttributesCore_loop (indexes : option bool)
    (raw : list (string * ModelAttributeColumnOptions)) (keys : list string) :
  fold_left (getAttributesCore_step indexes) raw keys
  = keys ++ map fst (List.filter (kept indexes) raw).
Proof.
  revert keys. induction raw as [|[key col] raw IH]; intros keys; simpl.
  - now rewrite app_nil_r.
  - rewrite IH. destruct indexes as [[|]|]; simpl.
    + destruct (isIndex col); simpl; [now rewrite <- app_assoc | reflexivity].
    + destruct (isIndex col); simpl; [reflexivity | now rewrite <- app_assoc].
    + now rewrite <- app_assoc.
Qed.

Lemma getAttributesCore_filter (this : ModelClass) (indexes : option bool) :
  getAttributesCore this indexes
  = map fst (List.filter (kept indexes) (rawAttributes this)).
Proof. unfold getAttributesCore. now rewrite getAttributesCore_loop. Qed.

Lemma getAttributes_all (this : ModelClass) :
  getAttributes this = map fst (rawAttributes this).
Proof.
  unfold getAttributes. rewrite getAttributesCore_filter. f_equal.
  induction (rawAttributes this) as [|e l IH]; simpl; congruence.
Qed.

Lemma isIndex_spec (c : ModelAttributeColumnOptions) :
  isIndex c = flaggedPrimaryKey c || carriesReference c.
Proof.
  unfold isIndex, flaggedPrimaryKey, carriesReference, referencesTruthy.
  destruct (primaryKey c) as [[|]|], (references c) as [[[|ch t]|mo ke]|]; reflexivity.
Qed.

Lemma filterAttributes_policy (this : ModelClass) (p : SequelizeAttributes) :
  filterAttributes this (Some p) = policyColumns this p.
Proof.
  destruct p; simpl; unfold filterAttributes; simpl.
  - apply getAttributes_all.
  - unfold getNonIndexes. rewrite getAttributesCore_filter. f_equal.
    apply filter_ext. intros [k c]. simpl. now rewrite isIndex_spec.
Qed.

Lemma distinct_column_metadata {A : Type} (l : list (string * A)) (k : string) (a b : A) :
  NoDup (map fst l) → In (k, a) l → In (k, b) l → a = b.
Proof.
  induction l as [|[k0 a0] l IH]; simpl; [tauto|].
  rewrite NoDup_cons. intros [Hnin Hnd] [Ha|Ha] [Hb|Hb].
  - congruence.
  - injection Ha as -> ->. exfalso. apply Hnin.
    apply list_elem_of_In, in_map_iff. now exists (k, b).
  - injection Hb as -> ->. exfalso. apply Hnin.
    apply list_elem_of_In, in_map_iff. now exists (k, a).
  - now apply IH.
Qed.

(** ** The wrapper as a whole *)

Lemma getAttributesDeep_terminates (this : ModelClass)
    (a : option SequelizeAttributes) (options : option Obj) :
  getAttributesDeep this a options ≠ OutOfFuel.
Proof. unfold getAttributesDeep. apply whileOpts_terminates. lia. Qed.

Lemma getAttributesDeep_absent (this : ModelClass) (a : option SequelizeAttributes) :
  getAttributesDeep this a None = Ok VUndefined.
Proof. reflexivity. Qed.

(** The top-level projection is the policy's list. *)
Lemma getAttributesDeep_attributes (this : ModelClass)
    (a : option SequelizeAttributes) (o : Obj) (r : value) :
  getAttributesDeep this a (Some o) = Ok r →
  getProp r "attributes"
  = stringArray (policyColumns this (defaultArg WithIndexes a)).
Proof.
  unfold getAttributesDeep. cbn [anyOf truthy setProp]. intros H.
  apply whileOpts_frame with (k := "attributes") in H; [|discriminate].
  rewrite H, getProp_assign_eq. now rewrite filterAttributes_policy.
Qed.

(** Every top-level option other than [attributes] and [include] is handed
    on as the caller gave it. *)
Lemma getAttributesDeep_frame (this : ModelClass)
    (a : option SequelizeAttributes) (o : Obj) (r : value) (k : string) :
  getAttributesDeep this a (Some o) = Ok r →
  k ≠ "attributes" → k ≠ "include" →
  getProp r k = getProp (VObj o) k.
Proof.
  unfold getAttributesDeep. cbn [anyOf truthy setProp]. intros H Hk1 Hk2.
  apply whileOpts_frame with (k := k) in H; [|exact Hk2].
  rewrite H. apply getProp_assign_ne. congruence.
Qed.

Lemma getAttributesDeep_safe (this : ModelClass)
    (a : option SequelizeAttributes) (options : option Obj) :
  includesSafe (anyOf options) = true →
  ∃ r, getAttributesDeep this a options = Ok r.
Proof.
  intros Hs. unfold getAttributesDeep. apply whileOpts_safe; [lia|].
  destruct options as [o|]; [|reflexivity].
  cbn [anyOf truthy setProp] in *.
  rewrite includesSafe_VObj in *.
  rewrite lookupField_assign_ne by discriminate. exact Hs.
Qed.

(** Each method hands [getAttributesDeep]'s result to its ORM method. *)
Lemma invoke_handedOptions (this : ModelClass) (call : SafeCall) :
  handedOptions <$> invoke this call
  = getAttributesDeep this (Some (defaultArg WithIndexes (policyArg call)))
      (optionsArg call).
Proof.
  destruct call; simpl;
    unfold findAllSafe, createSafe, findOneSafe, findByPkSafe, findOrCreateSafe;
    unfold_result;
    match goal with
    | |- context [getAttributesDeep ?t ?p ?o] => destruct (getAttributesDeep t p o)
    end; reflexivity.
Qed.

Lemma getAttributesDeep_default (this : ModelClass)
    (a : option SequelizeAttributes) (options : option Obj) :
  getAttributesDeep this (Some (defaultArg WithIndexes a)) options
  = getAttributesDeep this a options.
Proof. now destruct a. Qed.

Lemma invoke_Ok_handed (this : ModelClass) (call : SafeCall) (c : OrmCall) :
  invoke this call = Ok c →
  getAttributesDeep this (policyArg call) (optionsArg call) = Ok (handedOptions c).
Proof.
  intros H. rewrite <- getAttributesDeep_default, <- invoke_handedOptions, H.
  reflexivity.
Qed.

(** A value without a truthy [include] ends the loop as it is. *)
Lemma whileOpts_leaf (n : nat) (a : SequelizeAttributes) (v r : value) :
  truthy (getProp v "include") = false → whileOpts n a v = Ok r → r = v.
Proof.
  intros Hf. rewrite whileOpts_unfold.
  destruct (truthy v); [|now intros [= <-]].
  destruct n as [|n]; [discriminate|].
  unfold loopBody. rewrite Hf. unfold_result.
  rewrite whileOpts_falsy by exact Hf. rewrite Hf. now intros [= <-].
Qed.

(** What the wrapper leaves in the top-level [include]: the rewritten value,
    whenever that value has no truthy [include] of its own. *)
Lemma getAttributesDeep_include (this : ModelClass) (a : option SequelizeAttributes)
    (o : Obj) (include r x : value) :
  lookupField "include" o = Some include →
  truthy include = true →
  rewriteInclude (defaultArg WithIndexes a) include = Ok x →
  truthy (getProp x "include") = false →
  getAttributesDeep this a (Some o) = Ok r →
  getProp r "include" = x.
Proof.
  intros Hl Ht Hx Hleaf. unfold getAttributesDeep. cbn [anyOf truthy setProp].
  rewrite whileOpts_unfold. cbn [truthy].
  set (n := includeDepth _). clearbody n.
  assert (Hg : getProp (VObj o) "include" = include) by (simpl; now rewrite Hl).
  unfold loopBody. rewrite !getProp_assign_ne by discriminate.
  rewrite Hg, Ht, Hx. unfold_result. cbn [setProp]. rewrite getProp_assign_eq.
  destruct (whileOpts n _ x) as [below| |] eqn:Hb; try discriminate.
  apply whileOpts_leaf in Hb; [|exact Hleaf]. subst below.
  intros [= <-]. destruct (truthy x); cbn [setProp]; now rewrite getProp_assign_eq.
Qed.

Lemma mapArray_lookup (f : value → result value) (xs ys : list value) (i : nat) (x : value) :
  mapArray f xs = Ok ys → xs !! i = Some x →
  ∃ y, ys !! i = Some y ∧ f x = Ok y.
Proof.
  revert ys i. induction xs as [|x0 xs IH]; intros ys i; simpl; [discriminate|].
  intros H. apply bind_Ok_inv in H as (y0 & Hy0 & H).
  apply bind_Ok_inv in H as (ys' & Hys & [= <-]).
  destruct i as [|i]; simpl.
  - intros [= <-]. eauto.
  - intros Hi. exact (IH ys' i Hys Hi).
Qed.

(** A model class deriving from [SequelizeModel], or a descriptor carrying
    one, is replaced by [{ model, attributes }] with the model's own list
    under the same policy. *)
Lemma addAttributesToInclude_model (p : SequelizeAttributes) (m : ModelClass) :
  extendsSequelizeModel m = true →
  addAttributesToInclude (Some p) (VModel m)
  = Ok (VObj [("model", VModel m);
              ("attributes", stringArray (policyColumns m p))]).
Proof.
  intros Hm. unfold addAttributesToInclude. simpl. rewrite Hm. simpl.
  rewrite Hm. unfold_result. now rewrite filterAttributes_policy.
Qed.

Lemma addAttributesToInclude_descriptor (p : SequelizeAttributes) (fs : Obj)
    (m : ModelClass) :
  lookupField "model" fs = Some (VModel m) →
  extendsSequelizeModel m = true →
  addAttributesToInclude (Some p) (VObj fs)
  = Ok (VObj [("model", VModel m);
              ("attributes", stringArray (policyColumns m p))]).
Proof.
  intros Hl Hm. unfold addAttributesToInclude. simpl. rewrite Hl. simpl.
  rewrite Hm. unfold_result. now rewrite filterAttributes_policy.
Qed.

(** A single top-level include naming a model is handed on as
    [{ model, attributes }]. *)
Lemma getAttributesDeep_single_include (this : ModelClass) (p : SequelizeAttributes)
    (o fs : Obj) (m : ModelClass) (r : value) :
  lookupField "include" o = Some (VObj fs) →
  lookupField "model" fs = Some (VModel m) →
  extendsSequelizeModel m = true →
  getAttributesDeep this (Some p) (Some o) = Ok r →
  getProp r "include"
  = VObj [("model", VModel m); ("attributes", stringArray (policyColumns m p))].
Proof.
  intros Hl Hm He Hr.
  eapply getAttributesDeep_include; [exact Hl | reflexivity | | reflexivity | exact Hr].
  simpl. now apply addAttributesToInclude_descriptor.
Qed.

(** In a top-level include collection every entry goes through
    [addAttributesToInclude] once, in place. *)
Lemma getAttributesDeep_collection (this : ModelClass) (p : SequelizeAttributes)
    (o : Obj) (items : list value) (r : value) (i : nat) (entry : value) :
  lookupField "include" o = Some (VArr items) →
  items !! i = Some entry →
  getAttributesDeep this (Some p) (Some o) = Ok r →
  ∃ items' entry', getProp r "include" = VArr items'
                   ∧ items' !! i = Some entry'
                   ∧ addAttributesToInclude (Some p) entry = Ok entry'.
Proof.
  intros Hl Hi Hr.
  destruct (mapArray (addAttributesToInclude (Some p)) items) as [ys| |] eqn:Hm.
  - destruct (mapArray_lookup _ _ _ _ _ Hm Hi) as (y & Hy & Hf).
    exists ys, y. repeat split; [|exact Hy|exact Hf].
    eapply getAttributesDeep_include; [exact Hl | reflexivity | | reflexivity | exact Hr].
    simpl. rewrite Hm. reflexivity.
  - exfalso. revert Hr. unfold getAttributesDeep. cbn [anyOf truthy setProp].
    assert (Hg : getProp (VObj o) "include" = VArr items) by (simpl; now rewrite Hl).
    rewrite whileOpts_unfold. cbn [truthy]. unfold loopBody.
    rewrite !getProp_assign_ne by discriminate. rewrite Hg. simpl.
    rewrite Hm. unfold_result. discriminate.
  - exfalso. revert Hm. apply mapArray_not_OutOfFuel.
    apply addAttributesToInclude_not_OutOfFuel.
Qed.

(** ** The spec's scenarios *)

Example User_getIndexes : getIndexes User = ["userId"].
Proof. reflexivity. Qed.

Example User_getNonIndexes : getNonIndexes User = ["email"; "password"].
Proof. reflexivity. Qed.

Example User_findOneSafe :
  findOneSafe User (Some WithIndexes) (Some whereEmail)
  = Ok (FindOne User
          (VObj [("where", VObj [("email", VStr "a@b.com")]);
                 ("attributes", stringArray ["userId"; "email"; "password"])])).
Proof. reflexivity. Qed.

Example Role_findAllSafe_include_Meeting :
  findAllSafe Role (Some WithoutIndexes) (Some [("include", VModel Meeting)])
  = Ok (FindAll Role
          (VObj [("include",
                  VObj [("model", VModel Meeting);
                        ("attributes",
                         stringArray ["meetingId"; "status"; "scheduledAt";
                                      "createdAt"; "updatedAt"])]);
                 ("attributes",
                  stringArray ["roleId"; "roleName"; "createdAt"; "updatedAt"])])).
Proof. reflexivity. Qed.

(** ** Main results *)

(** C1 asks that an include nested inside another include is rewritten too,
    with its model's policy-filtered attribute list.  On
    [findAllSafe(WithoutIndexes, { include: { model: Meeting, include:
    { model: User } } })] the outer entry is handed over as
    [{ model: Meeting, attributes }] and the nested include, which the
    caller gave, is not rewritten: it is gone from the options handed to
    [findAll].  Inside a collection the loop does not go below an entry
    either: in [{ include: [ { association: 'participants', include:
    User } ] }] the inner include is handed on as the bare model, without
    [attributes]. *)
Theorem C1_nested_include_not_rewritten :
  (∃ handed,
     findAllSafe Role (Some WithoutIndexes) (Some nestedInclude)
     = Ok (FindAll Role handed)
     ∧ getProp (getProp (VObj nestedInclude) "include") "include"
       = VObj [("model", VModel User)]
     ∧ getProp handed "include" = rewrittenInclude Meeting WithoutIndexes
     ∧ getProp (getProp handed "include") "include" = VUndefined)
  ∧ (∃ handed,
       findAllSafe Role (Some WithoutIndexes) (Some nestedInCollection)
       = Ok (FindAll Role handed)
       ∧ getProp handed "include"
         = VArr [VObj [("association", VStr "participants");
                       ("include", VModel User)]]).
Proof.
  split; eexists; repeat split; vm_compute; reflexivity.
Qed.

(** C2: when options are given and the method reaches its ORM call, the
    [attributes] option handed over is exactly the policy's list: all
    declared columns under [WithIndexes]; under [WithoutIndexes] the declared
    columns that are neither flagged primary key nor carry a reference, so
    that no primary-key or foreign-key column of the model is in the list. *)
Theorem C2_attributes_are_policy_columns (this : ModelClass) (call : SafeCall)
    (o : Obj) (c : OrmCall) :
  optionsArg call = Some o →
  invoke this call = Ok c →
  let p := defaultArg WithIndexes (policyArg call) in
  getProp (handedOptions c) "attributes" = stringArray (policyColumns this p)
  ∧ policyColumns this WithIndexes = map fst (rawAttributes this)
  ∧ (p = WithoutIndexes → distinctColumns this →
     ∀ key col, In (key, col) (rawAttributes this) →
                flaggedPrimaryKey col || carriesReference col = true →
                ¬ In key (policyColumns this p)).
Proof.
  intros Ho Hc p. split; [|split; [reflexivity|]].
  - apply invoke_Ok_handed in Hc. rewrite Ho in Hc.
    now apply getAttributesDeep_attributes in Hc.
  - intros -> Hnd key col Hin Hkey Hmem. simpl in Hmem.
    apply in_map_iff in Hmem as ([k' col'] & Hk & Hf). simpl in Hk. subst k'.
    apply filter_In in Hf as [Hin' Hno]. simpl in Hno.
    rewrite (distinct_column_metadata _ _ _ _ Hnd Hin Hin') in Hkey.
    rewrite Hkey in Hno. discriminate.
Qed.

Lemma C2_witness :
  optionsArg (CallFindOneSafe (Some WithoutIndexes) (Some whereEmail))
  = Some whereEmail
  ∧ invoke User (CallFindOneSafe (Some WithoutIndexes) (Some whereEmail))
    = Ok (FindOne User
            (VObj [("where", VObj [("email", VStr "a@b.com")]);
                   ("attributes", stringArray ["email"; "password"])]))
  ∧ getProp (VObj [("where", VObj [("email", VStr "a@b.com")]);
                   ("attributes", stringArray ["email"; "password"])])
      "attributes"
    = stringArray (policyColumns User WithoutIndexes).
Proof.
  split; [reflexivity|]. split; [reflexivity|].
  exact (proj1 (C2_attributes_are_policy_columns User
                  (CallFindOneSafe (Some WithoutIndexes) (Some whereEmail))
                  whereEmail _ eq_refl eq_refl)).
Defined.

(** C3 asks that the non-attribute fields of each include descriptor, such
    as its own [where] or [required], reach the ORM call unchanged.  On
    [findAllSafe(WithIndexes, { where, limit, include: { model: Meeting,
    where, required: true } })] the top-level [where] and [limit] are handed
    on as given, but the include descriptor is replaced by a two-field
    [{ model, attributes }]: its [where] and [required] are lost. *)
Theorem C3_include_descriptor_fields_lost :
  ∃ handed,
    findAllSafe Role (Some WithIndexes) (Some includeWithWhere)
    = Ok (FindAll Role handed)
    ∧ getProp handed "where" = getProp (VObj includeWithWhere) "where"
    ∧ getProp handed "limit" = getProp (VObj includeWithWhere) "limit"
    ∧ getProp (getProp (VObj includeWithWhere) "include") "where"
      = VObj [("status", VStr "live")]
    ∧ getProp (getProp (VObj includeWithWhere) "include") "required" = VBool true
    ∧ getProp (getProp handed "include") "where" = VUndefined
    ∧ getProp (getProp handed "include") "required" = VUndefined.
Proof. eexists; repeat split; vm_compute; reflexivity. Qed.

(** C4: the names [getAttributes()] returns are those of [getIndexes()]
    together with those of [getNonIndexes()], the two sets are disjoint, and
    each declared column is in exactly one of them, as [isIndex] decides. *)
Theorem C4_attributes_partition (m : ModelClass) :
  distinctColumns m →
  (list_to_set (getAttributes m) : gset string)
  = list_to_set (getIndexes m) ∪ list_to_set (getNonIndexes m)
  ∧ (list_to_set (getIndexes m) : gset string) ## list_to_set (getNonIndexes m)
  ∧ ∀ key col, In (key, col) (rawAttributes m) →
      (isIndex col = true ∧ In key (getIndexes m) ∧ ¬ In key (getNonIndexes m))
      ∨ (isIndex col = false ∧ ¬ In key (getIndexes m) ∧ In key (getNonIndexes m)).
Proof.
  intros Hnd. unfold getIndexes, getNonIndexes.
  rewrite getAttributes_all, !getAttributesCore_filter.
  assert (Hidx : ∀ key, In key (map fst (List.filter (kept (Some true)) (rawAttributes m)))
                        ↔ ∃ col, In (key, col) (rawAttributes m) ∧ isIndex col = true).
  { intros key. rewrite in_map_iff. split.
    - intros ([k col] & <- & Hf). apply filter_In in Hf as [Hin Hk]. eauto.
    - intros (col & Hin & Hk). exists (key, col). split; [reflexivity|].
      apply filter_In. auto. }
  assert (Hnon : ∀ key, In key (map fst (List.filter (kept (Some false)) (rawAttributes m)))
                        ↔ ∃ col, In (key, col) (rawAttributes m) ∧ isIndex col = false).
  { intros key. rewrite in_map_iff. split.
    - intros ([k col] & <- & Hf). apply filter_In in Hf as [Hin Hk].
      simpl in Hk. apply negb_true_iff in Hk. eauto.
    - intros (col & Hin & Hk). exists (key, col). split; [reflexivity|].
      apply filter_In. simpl. rewrite Hk. auto. }
  split; [|split].
  - apply set_eq. intros key.
    rewrite elem_of_union, !elem_of_list_to_set, !list_elem_of_In, Hidx, Hnon.
    rewrite in_map_iff. split.
    + intros ([k col] & <- & Hin). simpl.
      destruct (isIndex col) eqn:E; [left | right]; eauto.
    + intros [(col & Hin & _)|(col & Hin & _)]; now exists (key, col).
  - intros key. rewrite !elem_of_list_to_set, !list_elem_of_In, Hidx, Hnon.
    intros (c1 & Hin1 & H1) (c2 & Hin2 & H2).
    rewrite (distinct_column_metadata _ _ _ _ Hnd Hin1 Hin2) in H1. congruence.
  - intros key col Hin. rewrite Hidx, Hnon.
    destruct (isIndex col) eqn:E; [left | right]; repeat split; eauto.
    + intros (c2 & Hin2 & H2).
      rewrite (distinct_column_metadata _ _ _ _ Hnd Hin Hin2) in E. congruence.
    + intros (c2 & Hin2 & H2).
      rewrite (distinct_column_metadata _ _ _ _ Hnd Hin Hin2) in E. congruence.
Qed.

Lemma C4_witness :
  distinctColumns Meeting
  ∧ (list_to_set (getAttributes Meeting) : gset string)
    = list_to_set (getIndexes Meeting) ∪ list_to_set (getNonIndexes Meeting)
  ∧ (list_to_set (getIndexes Meeting) : gset string)
    ## list_to_set (getNonIndexes Meeting).
Proof.
  assert (H : distinctColumns Meeting).
  { unfold distinctColumns. apply (bool_decide_unpack _). vm_compute. exact I. }
  split; [exact H|].
  pose proof (C4_attributes_partition Meeting H) as (Hu & Hd & _).
  split; assumption.
Defined.

(** C5: called without options, each safe-query method throws nothing and
    hands [undefined] to its ORM method: no [attributes] is injected and no
    include is rewritten. *)
Theorem C5_absent_options_pass_through (this : ModelClass)
    (a : option SequelizeAttributes) (values identifier : value) :
  findAllSafe this a None = Ok (FindAll this VUndefined)
  ∧ createSafe this values a None = Ok (Create this values VUndefined)
  ∧ findOneSafe this a None = Ok (FindOne this VUndefined)
  ∧ findByPkSafe this a identifier None = Ok (FindByPk this identifier VUndefined)
  ∧ findOrCreateSafe this a None = Ok (FindOrCreate this VUndefined).
Proof. repeat split. Qed.

(** C6 does not hold of every options value: with the include descriptor
    [{ model: PlainModel }], whose model extends the ORM's [Model] directly,
    [findAllSafe] rejects with a [TypeError] raised by the include rewriting,
    before the ORM is called, even with an engine that cannot fail. *)
Lemma C6_wrapper_raises_its_own_error :
  invoke Role (CallFindAllSafe (Some WithIndexes) (Some plainInclude))
  = Throw (TypeError "_include.filterAttributes is not a function")
  ∧ runSafe (Row := unit) (Failure := Empty_set) (λ _, inr tt) Role
      (CallFindAllSafe (Some WithIndexes) (Some plainInclude))
    = RejectedByWrapper (TypeError "_include.filterAttributes is not a function").
Proof. split; vm_compute; reflexivity. Qed.

(** C6, for models of the safe base class: when every include entry the
    rewriting reaches names, if anything, a model class deriving from
    [SequelizeModel], the wrapper raises no error of its own: the method
    reaches its ORM call and its promise settles exactly as that call
    does. *)
Theorem C6_only_engine_failures {Row Failure : Type}
    (engine : OrmCall → Failure + Row) (this : ModelClass) (call : SafeCall) :
  includesSafe (anyOf (optionsArg call)) = true →
  ∃ c, invoke this call = Ok c
       ∧ runSafe engine this call = ofEngine (engine c).
Proof.
  intros Hs.
  destruct (getAttributesDeep_safe this
              (Some (defaultArg WithIndexes (policyArg call))) _ Hs) as [r Hr].
  rewrite <- invoke_handedOptions in Hr. unfold runSafe.
  destruct (invoke this call) as [c| |]; try discriminate.
  exists c. split; reflexivity.
Qed.

Lemma C6_witness :
  includesSafe (anyOf (optionsArg
    (CallFindAllSafe (Some WithoutIndexes) (Some mixedCollection)))) = true
  ∧ ∃ c, invoke Role (CallFindAllSafe (Some WithoutIndexes) (Some mixedCollection))
         = Ok c
         ∧ runSafe (Row := nat) (Failure := string)
             (λ _, inl "connection lost") Role
             (CallFindAllSafe (Some WithoutIndexes) (Some mixedCollection))
           = ofEngine (inl "connection lost").
Proof.
  split; [reflexivity|].
  exact (C6_only_engine_failures (λ _, inl "connection lost") Role
           (CallFindAllSafe (Some WithoutIndexes) (Some mixedCollection)) eq_refl).
Defined.

(** C7: for the same policy and options, [createSafe] and [findOrCreateSafe]
    hand to [create] and [findOrCreate] the options [findAllSafe] hands to
    [findAll] (and throw when it throws). *)
Theorem C7_same_substitution (this : ModelClass) (values : value)
    (a : option SequelizeAttributes) (options : option Obj) :
  handedOptions <$> createSafe this values a options
  = handedOptions <$> findAllSafe this a options
  ∧ handedOptions <$> findOrCreateSafe this a options
    = handedOptions <$> findAllSafe this a options.
Proof.
  pose proof (invoke_handedOptions this (CallFindAllSafe a options)) as Ha.
  pose proof (invoke_handedOptions this (CallCreateSafe values a options)) as Hc.
  pose proof (invoke_handedOptions this (CallFindOrCreateSafe a options)) as Hf.
  simpl in Ha, Hc, Hf. rewrite Ha, Hc, Hf. split; reflexivity.
Qed.

(** On a database whose [Chats] table has no column [type], [up] followed by
    [down] succeeds and gives the database back. *)
Lemma upThenDown_fresh (ChatTypesEnum : list string)
    (db : gmap string (list (string * Migration.ColumnDefinition)))
    (cols : list (string * Migration.ColumnDefinition)) :
  db !! "Chats" = Some cols →
  Migration.hasColumn "type" cols = false →
  Migration.upThenDown ChatTypesEnum Migration.sqlInterface db = inr db.
Proof.
  intros Hl Hc.
  unfold Migration.upThenDown, Migration.up, Migration.down. simpl.
  rewrite Hl, Hc. rewrite lookup_insert_eq.
  assert (Hhas : Migration.hasColumn "type"
                   (cols ++ [("type", {| Migration.dataType := Migration.ENUM ChatTypesEnum;
                                         Migration.defaultValue := Some "chat" |})]) = true).
  { unfold Migration.hasColumn. rewrite existsb_app. simpl. apply orb_true_r. }
  rewrite Hhas. rewrite insert_insert_eq. f_equal.
  apply insert_id. rewrite Hl. f_equal.
  rewrite List.filter_app. simpl. rewrite app_nil_r.
  unfold Migration.hasColumn in Hc. clear -Hc.
  induction cols as [|c cols IH]; simpl in *; [reflexivity|].
  apply orb_false_iff in Hc as [Hc1 Hc2]. rewrite Hc1. simpl.
  f_equal. exact (IH Hc2).
Qed.

(** [up] goes through exactly on a database whose [Chats] table exists and
    has no column [type]. *)
Lemma up_succeeds_iff (ChatTypesEnum : list string)
    (db : gmap string (list (string * Migration.ColumnDefinition))) :
  (∃ db', Migration.up ChatTypesEnum Migration.sqlInterface db = inr db')
  ↔ ∃ cols, db !! "Chats" = Some cols ∧ Migration.hasColumn "type" cols = false.
Proof.
  unfold Migration.up. simpl. split.
  - intros [db' H]. destruct (db !! "Chats") as [cols|]; [|discriminate].
    destruct (Migration.hasColumn "type" cols) eqn:E; [discriminate|]. eauto.
  - intros (cols & -> & ->). eauto.
Qed.

(** C8: whenever [up] goes through, adding the enumerated column [type] with
    default "chat" to [Chats], [down] on the resulting database goes through
    too and gives back the database as it was before [up]: every table,
    [Chats] included, has its former schema. *)
Theorem C8_up_then_down_restores (ChatTypesEnum : list string)
    (db db' : gmap string (list (string * Migration.ColumnDefinition))) :
  Migration.up ChatTypesEnum Migration.sqlInterface db = inr db' →
  Migration.down Migration.sqlInterface db' = inr db
  ∧ db' !! "Chats"
    = (λ cols, cols ++ [("type", {| Migration.dataType := Migration.ENUM ChatTypesEnum;
                                    Migration.defaultValue := Some "chat" |})])
      <$> db !! "Chats".
Proof.
  intros Hup.
  destruct (proj1 (up_succeeds_iff ChatTypesEnum db) (ex_intro _ db' Hup))
    as (cols & Hl & Hc).
  pose proof (upThenDown_fresh ChatTypesEnum db cols Hl Hc) as Hrt.
  unfold Migration.upThenDown in Hrt. rewrite Hup in Hrt. split; [exact Hrt|].
  revert Hup. unfold Migration.up. simpl. rewrite Hl, Hc. intros [= <-].
  now rewrite lookup_insert_eq.
Qed.

Lemma C8_witness :
  ∃ db', Migration.up ["chat"; "question"] Migration.sqlInterface Migration.sampleDb
         = inr db'
         ∧ Migration.down Migration.sqlInterface db' = inr Migration.sampleDb.
Proof.
  eexists. split; [reflexivity|].
  exact (proj1 (C8_up_then_down_restores ["chat"; "question"] Migration.sampleDb _
                  eq_refl)).
Defined.

(** C9 does not extend to the whole branch: the single include
    [{ association: 'participants', include: User }] neither carries a
    [model] nor exposes [filterAttributes], and [addAttributesToInclude]
    returns it unchanged; yet the loop then moves into it and rewrites the
    include it carries, so attribute filtering is applied in that branch. *)
Lemma C9_branch_still_filtered :
  truthy (getProp associationWithInclude "model") = false
  ∧ truthy (getProp associationWithInclude "filterAttributes") = false
  ∧ addAttributesToInclude (Some WithoutIndexes) associationWithInclude
    = Ok associationWithInclude
  ∧ ∃ handed,
      findAllSafe Role (Some WithoutIndexes)
        (Some [("include", associationWithInclude)])
      = Ok (FindAll Role handed)
      ∧ getProp handed "include"
        = VObj [("association", VStr "participants");
                ("include", rewrittenInclude User WithoutIndexes)].
Proof.
  repeat split. eexists. split; vm_compute; reflexivity.
Qed.

(** C9, for the entry itself: an include entry that neither carries a
    truthy [model] nor exposes [filterAttributes] comes back from
    [addAttributesToInclude] as it went in.  As a member of an include
    collection, or as the single include when it has no truthy [include] of
    its own, it is handed to the ORM call unchanged. *)
Theorem C9_other_entries_unchanged (a : option SequelizeAttributes) (include : value) :
  truthy (getProp include "model") = false →
  truthy (getProp include "filterAttributes") = false →
  addAttributesToInclude a include = Ok include
  ∧ (∀ this o items i r,
       lookupField "include" o = Some (VArr items) → items !! i = Some include →
       getAttributesDeep this a (Some o) = Ok r →
       ∃ items', getProp r "include" = VArr items' ∧ items' !! i = Some include)
  ∧ (∀ this o r,
       lookupField "include" o = Some include → isArray include = false →
       truthy (getProp include "include") = false →
       getAttributesDeep this a (Some o) = Ok r →
       getProp r "include" = include).
Proof.
  intros Hm Hf.
  assert (Hskip : ∀ a', addAttributesToInclude a' include = Ok include).
  { intros a'. apply addAttributesToInclude_skip.
    unfold rewritable. rewrite Hm, Hf. apply andb_false_r. }
  split; [apply Hskip|split].
  - intros this o items i r Hl Hi Hr. rewrite <- getAttributesDeep_default in Hr.
    destruct (getAttributesDeep_collection _ _ _ _ _ _ _ Hl Hi Hr)
      as (items' & entry' & Hr' & Hi' & He).
    rewrite Hskip in He. injection He as <-. eauto.
  - intros this o r Hl Harr Hleaf Hr.
    destruct (truthy include) eqn:Ht.
    + eapply getAttributesDeep_include; [exact Hl|exact Ht| |exact Hleaf|exact Hr].
      destruct include; try apply Hskip. discriminate.
    + revert Hr. unfold getAttributesDeep. cbn [anyOf truthy setProp].
      intros Hr. apply whileOpts_leaf in Hr.
      * subst r. rewrite getProp_assign_ne by discriminate.
        simpl. now rewrite Hl.
      * rewrite getProp_assign_ne by discriminate. simpl. now rewrite Hl.
Qed.

Lemma C9_witness :
  truthy (getProp (VStr "participants") "model") = false
  ∧ truthy (getProp (VStr "participants") "filterAttributes") = false
  ∧ addAttributesToInclude (Some WithoutIndexes) (VStr "participants")
    = Ok (VStr "participants").
Proof.
  split; [reflexivity|]. split; [reflexivity|].
  exact (proj1 (C9_other_entries_unchanged (Some WithoutIndexes)
                  (VStr "participants") eq_refl eq_refl)).
Defined.

(** C10: with the policy argument omitted, each safe-query method does what it
    does with [WithIndexes]; when options are given and the ORM call is
    reached, the injected list is the full list of declared columns. *)
Theorem C10_default_policy_is_WithIndexes (this : ModelClass) (call : SafeCall) :
  invoke this (withPolicy None call)
  = invoke this (withPolicy (Some WithIndexes) call)
  ∧ ∀ o c, optionsArg call = Some o →
           invoke this (withPolicy None call) = Ok c →
           getProp (handedOptions c) "attributes"
           = stringArray (map fst (rawAttributes this)).
Proof.
  split; [now destruct call|].
  intros o c Ho Hc. apply invoke_Ok_handed in Hc.
  assert (Hp : policyArg (withPolicy None call) = None) by now destruct call.
  assert (Hopt : optionsArg (withPolicy None call) = Some o) by now destruct call.
  rewrite Hp, Hopt in Hc.
  now apply getAttributesDeep_attributes in Hc.
Qed.

Lemma C10_witness :
  invoke User (withPolicy None (CallFindOneSafe (Some WithoutIndexes) (Some whereEmail)))
  = Ok (FindOne User
          (VObj [("where", VObj [("email", VStr "a@b.com")]);
                 ("attributes", stringArray ["userId"; "email"; "password"])]))
  ∧ getProp (VObj [("where", VObj [("email", VStr "a@b.com")]);
                   ("attributes", stringArray ["userId"; "email"; "password"])])
      "attributes"
    = stringArray (map fst (rawAttributes User)).
Proof.
  split; [reflexivity|].
  exact (proj2 (C10_default_policy_is_WithIndexes User
                  (CallFindOneSafe (Some WithoutIndexes) (Some whereEmail)))
           whereEmail _ eq_refl eq_refl).
Defined.

(** * Further properties of the helpers *)

(** ** Attribute lists *)

Lemma kept_sublist (f : string * ModelAttributeColumnOptions → bool)
    (raw : list (string * ModelAttributeColumnOptions)) :
  sublist (map fst (List.filter f raw)) (map fst raw).
Proof.
  induction raw as [|e raw IH]; simpl; [constructor|].
  destruct (f e); simpl; [now apply sublist_skip | now apply sublist_cons].
Qed.

Lemma kept_partition (raw : list (string * ModelAttributeColumnOptions)) :
  map fst raw
  ≡ₚ map fst (List.filter (kept (Some true)) raw)
     ++ map fst (List.filter (kept (Some false)) raw).
Proof.
  induction raw as [|[key col] raw IH]; simpl; [reflexivity|].
  destruct (isIndex col); simpl.
  - now constructor.
  - rewrite IH. apply Permutation_middle.
Qed.

Lemma filter_all_length {A : Type} (f : A → bool) (l : list A) :
  length (List.filter f l) = length l → forallb f l = true.
Proof.
  induction l as [|x l IH]; simpl; [reflexivity|].
  destruct (f x); simpl.
  - intros [= H]. auto.
  - intros H. pose proof (List.filter_length_le f l). lia.
Qed.

Lemma filter_all {A : Type} (f : A → bool) (l : list A) :
  forallb f l = true → List.filter f l = l.
Proof.
  induction l as [|x l IH]; simpl; [reflexivity|].
  intros [Hx Hl]%andb_true_iff. rewrite Hx. f_equal. auto.
Qed.

(** X1: [getAttributes()] lists the declared columns once each, in
    declaration order; [getIndexes()] and [getNonIndexes()] keep that order
    (each is a subsequence of it), and together they hold every entry of
    [getAttributes()] exactly as often as it occurs there, so their lengths
    add up to the number of declared columns. *)
Theorem X1_attribute_lists_split_in_order (this : ModelClass) :
  getAttributes this = map fst (rawAttributes this)
  ∧ sublist (getIndexes this) (getAttributes this)
  ∧ sublist (getNonIndexes this) (getAttributes this)
  ∧ getAttributes this ≡ₚ getIndexes this ++ getNonIndexes this
  ∧ length (getIndexes this) + length (getNonIndexes this)
    = length (rawAttributes this).
Proof.
  unfold getIndexes, getNonIndexes.
  rewrite getAttributes_all, !getAttributesCore_filter.
  split; [reflexivity|]. split; [apply kept_sublist|]. split; [apply kept_sublist|].
  pose proof (kept_partition (rawAttributes this)) as Hp.
  split; [exact Hp|].
  apply Permutation_length in Hp.
  rewrite length_app, !length_map in Hp. rewrite !length_map. lia.
Qed.

(** X2: the [WithoutIndexes] list is a subsequence of the [WithIndexes] list,
    and the two policies select the same list exactly when no declared column
    is a primary key or carries a reference. *)
Theorem X2_policies_compared (this : ModelClass) :
  sublist (filterAttributes this (Some WithoutIndexes))
          (filterAttributes this (Some WithIndexes))
  ∧ (filterAttributes this (Some WithoutIndexes)
     = filterAttributes this (Some WithIndexes)
     ↔ forallb (λ e, negb (isIndex e.2)) (rawAttributes this) = true).
Proof.
  unfold filterAttributes. simpl. unfold getNonIndexes.
  rewrite getAttributes_all, getAttributesCore_filter.
  split; [apply kept_sublist|]. split.
  - intros H. apply filter_all_length.
    apply (f_equal (@length string)) in H. now rewrite !length_map in H.
  - intros H. f_equal. now apply filter_all.
Qed.

(** ** Plain objects: repeated and independent writes *)

Lemma assign_assign (k : string) (x y : value) (fs : Obj) :
  assign k y (assign k x fs) = assign k y fs.
Proof.
  induction fs as [|[k0 v0] fs IH]; simpl.
  - now rewrite String.eqb_refl.
  - destruct (k0 =? k) eqn:E; simpl; rewrite E; [reflexivity | now rewrite IH].
Qed.

Lemma assign_unchanged (k : string) (v : value) (fs : Obj) :
  lookupField k fs = Some v → assign k v fs = fs.
Proof.
  induction fs as [|[k0 v0] fs IH]; simpl; [discriminate|].
  destruct (k0 =? k) eqn:E.
  - now intros [= ->].
  - intros H. now rewrite IH.
Qed.

Lemma assign_comm (k k' : string) (x y : value) (fs : Obj) :
  k ≠ k' → is_Some (lookupField k' fs) →
  assign k x (assign k' y fs) = assign k' y (assign k x fs).
Proof.
  intros Hne. induction fs as [|[k0 v0] fs IH]; simpl.
  - intros [? [=]].
  - destruct (k0 =? k') eqn:E'; destruct (k0 =? k) eqn:E; simpl; rewrite ?E, ?E'.
    + apply String.eqb_eq in E, E'. congruence.
    + reflexivity.
    + reflexivity.
    + intros H. now rewrite IH.
Qed.

Lemma assign_keys (k : string) (x : value) (fs : Obj) :
  map fst (assign k x fs)
  = match lookupField k fs with
    | Some _ => map fst fs
    | None => map fst fs ++ [k]
    end.
Proof.
  induction fs as [|[k0 v0] fs IH]; simpl; [reflexivity|].
  destruct (k0 =? k) eqn:E; simpl; [reflexivity|].
  rewrite IH. now destruct (lookupField k fs).
Qed.

(** ** The loop: shape of the result, independence of the budget *)

Lemma loopBody_VObj (a : SequelizeAttributes) (fs : Obj) (v1 : value) :
  loopBody a (VObj fs) = Ok v1 →
  ∃ fs1, v1 = VObj fs1
         ∧ map fst fs1 = map fst fs
         ∧ ∀ k, k ≠ "include" → lookupField k fs1 = lookupField k fs.
Proof.
  intros H. apply loopBody_Ok in H as [[_ ->]|(fs' & r & [= <-] & Hl & _ & _ & ->)].
  - eauto.
  - eexists. split; [reflexivity|]. split.
    + rewrite assign_keys, Hl. reflexivity.
    + intros k Hk. apply lookupField_assign_ne. congruence.
Qed.

(** The loop turns a plain object into a plain object with the same keys in
    the same order, and changes the value of [include] at most. *)
Lemma whileOpts_VObj (n : nat) (a : SequelizeAttributes) (fs : Obj) (r : value) :
  whileOpts n a (VObj fs) = Ok r →
  ∃ fs', r = VObj fs'
         ∧ map fst fs' = map fst fs
         ∧ ∀ k, k ≠ "include" → lookupField k fs' = lookupField k fs.
Proof.
  rewrite whileOpts_unfold. cbn [truthy]. destruct n as [|n]; [discriminate|].
  intros H. apply bind_Ok_inv in H as (v1 & Hb & H).
  apply bind_Ok_inv in H as (below & _ & [= <-]).
  apply loopBody_VObj in Hb as (fs1 & -> & Hk1 & Hf1).
  destruct (truthy (getProp (VObj fs1) "include")) eqn:Ht; [|eauto].
  cbn [setProp]. eexists. split; [reflexivity|].
  simpl in Ht. destruct (lookupField "include" fs1) as [x|] eqn:Hl; [|discriminate].
  split.
  - rewrite assign_keys, Hl. exact Hk1.
  - intros k Hk. rewrite lookupField_assign_ne by congruence. now apply Hf1.
Qed.

Lemma whileOpts_budget (n m : nat) (a : SequelizeAttributes) (v : value) :
  includeDepth v < n → includeDepth v < m → whileOpts n a v = whileOpts m a v.
Proof.
  revert m v. induction n as [|n IH]; intros m v Hn Hm; [lia|].
  destruct m as [|m]; [lia|].
  rewrite (whileOpts_unfold (S n)), (whileOpts_unfold (S m)).
  destruct (truthy v); [|reflexivity].
  destruct (loopBody a v) as [v1| |] eqn:Hb; unfold_result; try reflexivity.
  assert (Hnext : whileOpts n a (getProp v1 "include")
                  = whileOpts m a (getProp v1 "include")).
  { apply loopBody_Ok in Hb as [[Hf ->]|(fs & r & -> & Hl & Ht & Hr & ->)].
    - now rewrite !whileOpts_falsy.
    - rewrite getProp_assign_eq. rewrite includeDepth_VObj, Hl in Hn, Hm.
      apply rewriteInclude_Ok in Hr as [(-> & _ & _)|(Hz & _ & _)]; apply IH; lia. }
  now rewrite Hnext.
Qed.

(** X3: the loop of [getAttributesDeep] ends on every options tree: with the
    chain of [include] properties [d] deep it makes at most [d + 1] passes,
    so any larger budget gives the same outcome, an options value or a
    thrown error. *)
Theorem X3_loop_terminates (n : nat) (a : SequelizeAttributes) (opts : value) :
  includeDepth opts < n →
  whileOpts n a opts = whileOpts (S (includeDepth opts)) a opts
  ∧ ((∃ r, whileOpts n a opts = Ok r) ∨ (∃ e, whileOpts n a opts = Throw e)).
Proof.
  intros Hn. split; [apply whileOpts_budget; lia|].
  pose proof (whileOpts_terminates n a opts Hn) as Ht.
  destruct (whileOpts n a opts); [left|right|]; eauto. congruence.
Qed.

Lemma X3_witness :
  includeDepth (VObj nestedInclude) < 7
  ∧ whileOpts 7 WithIndexes (VObj nestedInclude)
    = whileOpts (S (includeDepth (VObj nestedInclude))) WithIndexes (VObj nestedInclude).
Proof.
  assert (H : includeDepth (VObj nestedInclude) < 7) by (vm_compute; lia).
  split; [exact H|].
  exact (proj1 (X3_loop_terminates 7 WithIndexes (VObj nestedInclude) H)).
Defined.

(** X4: on options without a truthy [include] the whole effect of the
    preprocessing is the one write [options.attributes = list]: the property
    is overwritten in place when the caller gave one and appended otherwise,
    nothing else changes, and nothing is thrown. *)
Theorem X4_without_include_one_write (this : ModelClass)
    (a : option SequelizeAttributes) (o : Obj) :
  truthy (getProp (VObj o) "include") = false →
  getAttributesDeep this a (Some o)
  = Ok (VObj (assign "attributes"
                (stringArray (policyColumns this (defaultArg WithIndexes a))) o)).
Proof.
  intros Hf. unfold getAttributesDeep. cbn [anyOf truthy setProp].
  rewrite filterAttributes_policy.
  set (root := VObj (assign "attributes" _ o)).
  assert (Hroot : truthy (getProp root "include") = false).
  { unfold root. now rewrite getProp_assign_ne by discriminate. }
  rewrite whileOpts_unfold. cbn [truthy root]. fold root.
  unfold loopBody. rewrite Hroot. unfold_result.
  rewrite whileOpts_falsy by exact Hroot. now rewrite Hroot.
Qed.

Lemma X4_witness :
  truthy (getProp (VObj whereEmail) "include") = false
  ∧ getAttributesDeep Role None (Some whereEmail)
    = Ok (VObj [("where", VObj [("email", VStr "a@b.com")]);
                ("attributes",
                 stringArray ["_roleId"; "roleId"; "roleName"; "createdAt"; "updatedAt"])]).
Proof.
  split; [reflexivity|].
  exact (X4_without_include_one_write Role None whereEmail eq_refl).
Defined.

(** X5: when the options object is the only object of the caller the loop
    writes to (its [include] is absent, a collection, an entry that is
    replaced, or an entry with no [include] of its own), a safe-query method
    that reaches its ORM call hands over a plain object with the caller's
    top-level keys in the caller's order ([attributes] appended when the
    caller gave none), and every top-level option other than [attributes]
    and [include] has the value the caller gave it. *)
Theorem X5_top_level_options_kept (this : ModelClass) (call : SafeCall)
    (o : Obj) (c : OrmCall) :
  writesRootOnly o = true →
  optionsArg call = Some o →
  invoke this call = Ok c →
  ∃ o', handedOptions c = VObj o'
        ∧ map fst o'
          = match lookupField "attributes" o with
            | Some _ => map fst o
            | None => map fst o ++ ["attributes"]
            end
        ∧ ∀ k, k ≠ "attributes" → k ≠ "include" →
               lookupField k o' = lookupField k o.
Proof.
  intros _ Ho Hc. apply invoke_Ok_handed in Hc. rewrite Ho in Hc.
  unfold getAttributesDeep in Hc. cbn [anyOf truthy setProp] in Hc.
  apply whileOpts_VObj in Hc as (o' & -> & Hkeys & Hframe).
  exists o'. split; [reflexivity|]. split.
  - rewrite Hkeys. apply assign_keys.
  - intros k Hk1 Hk2. rewrite Hframe by exact Hk2.
    apply lookupField_assign_ne. congruence.
Qed.

Lemma X5_witness :
  writesRootOnly includeWithWhere = true
  ∧ ∃ o', handedOptions
            (FindAll Role
               (VObj [("where", VObj [("roleName", VStr "admin")]);
                      ("limit", VNum 10);
                      ("include", rewrittenInclude Meeting WithIndexes);
                      ("attributes", stringArray (policyColumns Role WithIndexes))]))
          = VObj o'
          ∧ map fst o' = ["where"; "limit"; "include"; "attributes"].
Proof.
  split; [reflexivity|].
  destruct (X5_top_level_options_kept Role
              (CallFindAllSafe (Some WithIndexes) (Some includeWithWhere))
              includeWithWhere _ eq_refl eq_refl eq_refl) as (o' & Ho' & Hk & _).
  exists o'. split; [exact Ho' | exact Hk].
Defined.

(** ** When the preprocessing throws *)

Lemma addAttributesToInclude_unsafe (a : option SequelizeAttributes) (include : value) :
  entrySafe include = false →
  addAttributesToInclude a include
  = Throw (TypeError "_include.filterAttributes is not a function").
Proof.
  unfold entrySafe. destruct (rewritable include) eqn:E; [|discriminate].
  intros Hs. rewrite addAttributesToInclude_rewrite by exact E. cbv zeta.
  destruct (if truthy (getProp include "model")
            then getProp include "model" else include); simpl in *; try reflexivity.
  now rewrite Hs.
Qed.

Lemma addAttributesToInclude_Throw (a : option SequelizeAttributes) (include : value)
    (e : JsError) :
  addAttributesToInclude a include = Throw e →
  e = TypeError "_include.filterAttributes is not a function".
Proof.
  destruct (entrySafe include) eqn:E.
  - destruct (addAttributesToInclude_safe a include E) as [r ->]. discriminate.
  - rewrite addAttributesToInclude_unsafe by exact E. now intros [= <-].
Qed.

Lemma mapArray_unsafe (a : option SequelizeAttributes) (items : list value) :
  forallb entrySafe items = false →
  mapArray (addAttributesToInclude a) items
  = Throw (TypeError "_include.filterAttributes is not a function").
Proof.
  induction items as [|x items IH]; simpl; [discriminate|].
  destruct (entrySafe x) eqn:E; simpl.
  - intros H. destruct (addAttributesToInclude_safe a x E) as [y ->].
    unfold_result. unfold_result. rewrite (IH H). reflexivity.
  - intros _. now rewrite addAttributesToInclude_unsafe.
Qed.

Lemma whileOpts_unsafe (n : nat) (a : SequelizeAttributes) (opts : value) :
  includeDepth opts < n → includesSafe opts = false →
  whileOpts n a opts = Throw (TypeError "_include.filterAttributes is not a function").
Proof.
  revert opts. induction n as [|n IH]; intros opts Hd Hs; [lia|].
  destruct opts as [| | | | | |fs| |]; try discriminate.
  rewrite includesSafe_VObj in Hs. rewrite includeDepth_VObj in Hd.
  destruct (lookupField "include" fs) as [x|] eqn:Hl; [|discriminate].
  assert (Hg : getProp (VObj fs) "include" = x) by (simpl; now rewrite Hl).
  rewrite whileOpts_unfold. cbn [truthy]. unfold loopBody. rewrite Hg.
  destruct (isArray x) eqn:Ha.
  - destruct x; try discriminate. simpl.
    rewrite mapArray_unsafe by exact Hs. reflexivity.
  - assert (Hs' : (if rewritable x then entrySafe x else includesSafe x) = false)
      by (destruct x; try discriminate; exact Hs).
    assert (Hr : rewriteInclude a x = addAttributesToInclude (Some a) x)
      by (destruct x; try discriminate; reflexivity).
    rewrite Hr. destruct (rewritable x) eqn:E.
    + assert (Ht : truthy x = true)
        by (unfold rewritable in E; now apply andb_true_iff in E as [? _]).
      rewrite Ht. now rewrite addAttributesToInclude_unsafe.
    + assert (Ht : truthy x = true) by (destruct x; try discriminate; reflexivity).
      rewrite Ht, addAttributesToInclude_skip by exact E.
      unfold_result. cbn [setProp]. rewrite getProp_assign_eq.
      rewrite IH; [reflexivity | lia | exact Hs'].
Qed.

(** X6: when no include entry the loop reaches brings a callable
    [filterAttributes] of its own, a safe-query method reaches its ORM call
    exactly when every such entry names, if anything, a model class deriving
    from [SequelizeModel]; otherwise it throws, always the [TypeError] of the
    missing [filterAttributes], and makes no ORM call. *)
Theorem X6_throws_exactly_on_foreign_models (this : ModelClass) (call : SafeCall) :
  helpersOfModelsOnly (anyOf (optionsArg call)) = true →
  ((∃ c, invoke this call = Ok c) ↔ includesSafe (anyOf (optionsArg call)) = true)
  ∧ (invoke this call
     = Throw (TypeError "_include.filterAttributes is not a function")
     ↔ includesSafe (anyOf (optionsArg call)) = false).
Proof.
  intros _.
  assert (Hbad : includesSafe (anyOf (optionsArg call)) = false →
                 invoke this call
                 = Throw (TypeError "_include.filterAttributes is not a function")).
  { intros Hs.
    pose proof (invoke_handedOptions this call) as Hh.
    unfold getAttributesDeep in Hh. rewrite whileOpts_unsafe in Hh.
    - destruct (invoke this call); try discriminate. now injection Hh as ->.
    - lia.
    - destruct (optionsArg call) as [o|]; [|discriminate].
      cbn [anyOf truthy setProp] in *. rewrite includesSafe_VObj in *.
      now rewrite lookupField_assign_ne by discriminate. }
  assert (Hgood : includesSafe (anyOf (optionsArg call)) = true →
                  ∃ c, invoke this call = Ok c).
  { intros Hs.
    destruct (getAttributesDeep_safe this
                (Some (defaultArg WithIndexes (policyArg call))) _ Hs) as [r Hr].
    rewrite <- invoke_handedOptions in Hr.
    destruct (invoke this call) as [c| |]; try discriminate. eauto. }
  split; split; auto.
  - intros [c Hc]. destruct (includesSafe (anyOf (optionsArg call))); [reflexivity|].
    rewrite Hbad in Hc by reflexivity. discriminate.
  - intros Ht. destruct (includesSafe (anyOf (optionsArg call))); [|reflexivity].
    destruct Hgood as [c Hc]; [reflexivity|]. rewrite Hc in Ht. discriminate.
Qed.

Lemma X6_witness :
  helpersOfModelsOnly
    (anyOf (optionsArg (CallFindOneSafe (Some WithIndexes) (Some plainInclude)))) = true
  ∧ includesSafe
      (anyOf (optionsArg (CallFindOneSafe (Some WithIndexes) (Some plainInclude)))) = false
  ∧ invoke Role (CallFindOneSafe (Some WithIndexes) (Some plainInclude))
    = Throw (TypeError "_include.filterAttributes is not a function").
Proof.
  split; [reflexivity|]. split; [reflexivity|].
  exact (proj2 (proj2 (X6_throws_exactly_on_foreign_models Role
                         (CallFindOneSafe (Some WithIndexes) (Some plainInclude))
                         eq_refl)) eq_refl).
Defined.

(** ** Include collections *)

Lemma mapArray_Forall2 (f : value → result value) (xs ys : list value) :
  mapArray f xs = Ok ys → Forall2 (λ x y, f x = Ok y) xs ys.
Proof.
  revert ys. induction xs as [|x xs IH]; intros ys; simpl.
  - intros [= <-]. constructor.
  - intros H. apply bind_Ok_inv in H as (y & Hy & H).
    apply bind_Ok_inv in H as (ys' & Hys & [= <-]).
    constructor; auto.
Qed.

(** X7: an include given as an array is handed over as an array of the same
    length in which position [i] holds what [addAttributesToInclude] makes of
    the caller's entry [i]; nothing below an entry is visited. *)
Theorem X7_collection_rewritten_entrywise (this : ModelClass)
    (a : option SequelizeAttributes) (o : Obj) (items : list value) (r : value) :
  lookupField "include" o = Some (VArr items) →
  getAttributesDeep this a (Some o) = Ok r →
  ∃ items', getProp r "include" = VArr items'
            ∧ length items' = length items
            ∧ Forall2 (λ entry entry',
                         addAttributesToInclude a entry = Ok entry') items items'.
Proof.
  intros Hl Hr.
  assert (Hdef : ∀ x, addAttributesToInclude (Some (defaultArg WithIndexes a)) x
                      = addAttributesToInclude a x) by now destruct a.
  destruct (mapArray (addAttributesToInclude (Some (defaultArg WithIndexes a))) items)
    as [ys| |] eqn:Hm.
  - exists ys.
    assert (Hf : Forall2 (λ x y, addAttributesToInclude a x = Ok y) items ys).
    { apply mapArray_Forall2 in Hm. eapply Forall2_impl; [exact Hm|].
      intros x y H. now rewrite <- Hdef. }
    split; [|split; [symmetry; eapply Forall2_length; exact Hf | exact Hf]].
    eapply getAttributesDeep_include; [exact Hl | reflexivity | | reflexivity | exact Hr].
    simpl. rewrite Hm. reflexivity.
  - exfalso. revert Hr. unfold getAttributesDeep. cbn [anyOf truthy setProp].
    assert (Hg : getProp (VObj o) "include" = VArr items) by (simpl; now rewrite Hl).
    rewrite whileOpts_unfold. cbn [truthy]. unfold loopBody.
    rewrite !getProp_assign_ne by discriminate. rewrite Hg. simpl.
    rewrite Hm. unfold_result. discriminate.
  - exfalso. revert Hm. apply mapArray_not_OutOfFuel.
    apply addAttributesToInclude_not_OutOfFuel.
Qed.

Lemma X7_witness :
  lookupField "include" mixedCollection
  = Some (VArr [VModel Meeting; VStr "participants"; VObj [("model", VModel User)]])
  ∧ ∃ r items', getAttributesDeep Role (Some WithoutIndexes) (Some mixedCollection) = Ok r
                ∧ getProp r "include" = VArr items'
                ∧ length items' = 3.
Proof.
  split; [reflexivity|].
  eexists.
  destruct (X7_collection_rewritten_entrywise Role (Some WithoutIndexes)
              mixedCollection _ _ eq_refl eq_refl) as (items' & Hi & Hlen & _).
  exists items'. split; [reflexivity|]. split; [exact Hi | exact Hlen].
Defined.

(** ** Processing options that were processed before *)

(** A rewritten entry is read again as the model it was made from. *)
Lemma addAttributesToInclude_again (p q : SequelizeAttributes) (x x' : value) :
  addAttributesToInclude (Some p) x = Ok x' →
  addAttributesToInclude (Some q) x' = addAttributesToInclude (Some q) x.
Proof.
  intros H. destruct (rewritable x) eqn:E.
  - rewrite addAttributesToInclude_rewrite in H by exact E. cbv zeta in H.
    apply bind_Ok_inv in H as (attrs & Hc & [= <-]).
    rewrite (addAttributesToInclude_rewrite (Some q) x) by exact E. cbv zeta.
    destruct (if truthy (getProp x "model") then getProp x "model" else x)
      as [| | | | | | |m|]; try discriminate.
    reflexivity.
  - rewrite addAttributesToInclude_skip in H by exact E. now injection H as <-.
Qed.

Lemma mapArray_again (p q : SequelizeAttributes) (xs ys : list value) :
  mapArray (addAttributesToInclude (Some p)) xs = Ok ys →
  mapArray (addAttributesToInclude (Some q)) ys
  = mapArray (addAttributesToInclude (Some q)) xs.
Proof.
  revert ys. induction xs as [|x xs IH]; intros ys; simpl.
  - now intros [= <-].
  - intros H. apply bind_Ok_inv in H as (y & Hy & H).
    apply bind_Ok_inv in H as (ys' & Hys & [= <-]). simpl.
    now rewrite (addAttributesToInclude_again p q x y Hy), (IH ys' Hys).
Qed.

Lemma rewriteInclude_again (p q : SequelizeAttributes) (x x' : value) :
  rewriteInclude p x = Ok x' → rewriteInclude q x' = rewriteInclude q x.
Proof.
  intros H. destruct (isArray x) eqn:Ha.
  - destruct x; try discriminate. simpl in H.
    destruct (mapArray (addAttributesToInclude (Some p)) items) as [ys| |] eqn:Hm;
      try discriminate.
    injection H as <-. simpl. now rewrite (mapArray_again p q items ys Hm).
  - assert (Hadd : addAttributesToInclude (Some p) x = Ok x')
      by (destruct x; try discriminate; exact H).
    assert (Hq : rewriteInclude q x = addAttributesToInclude (Some q) x)
      by (destruct x; try discriminate; reflexivity).
    rewrite Hq, <- (addAttributesToInclude_again p q x x' Hadd).
    destruct (rewritable x) eqn:E.
    + rewrite addAttributesToInclude_rewrite in Hadd by exact E. cbv zeta in Hadd.
      apply bind_Ok_inv in Hadd as (attrs & _ & [= <-]). reflexivity.
    + rewrite addAttributesToInclude_skip in Hadd by exact E.
      injection Hadd as <-. destruct x; try discriminate; reflexivity.
Qed.

Lemma rewriteInclude_truthy (a : SequelizeAttributes) (x x' : value) :
  rewriteInclude a x = Ok x' → truthy x = true → truthy x' = true.
Proof.
  intros H Ht. destruct (isArray x) eqn:Ha.
  - destruct x; try discriminate. simpl in H. unfold_result.
    destruct (mapArray _ items); try discriminate. now injection H as <-.
  - assert (Hadd : addAttributesToInclude (Some a) x = Ok x')
      by (destruct x; try discriminate; exact H).
    destruct (rewritable x) eqn:E.
    + rewrite addAttributesToInclude_rewrite in Hadd by exact E. cbv zeta in Hadd.
      apply bind_Ok_inv in Hadd as (attrs & _ & [= <-]). reflexivity.
    + rewrite addAttributesToInclude_skip in Hadd by exact E. now injection Hadd as <-.
Qed.

(** What the loop leaves of a value it was not to rewrite: the same kind of
    value, with the same [model] and [filterAttributes]. *)
Lemma whileOpts_kind (n : nat) (a : SequelizeAttributes) (v r : value) :
  whileOpts n a v = Ok r →
  truthy r = truthy v ∧ isArray r = isArray v ∧ rewritable r = rewritable v.
Proof.
  intros H.
  assert (Hm : getProp r "model" = getProp v "model")
    by (eapply whileOpts_frame; [exact H | discriminate]).
  assert (Hf : getProp r "filterAttributes" = getProp v "filterAttributes")
    by (eapply whileOpts_frame; [exact H | discriminate]).
  assert (Hk : truthy r = truthy v ∧ isArray r = isArray v).
  { destruct v as [| | | | | |fs|m|];
      try (apply whileOpts_leaf in H; [subst r; auto | reflexivity]).
    - apply whileOpts_VObj in H as (fs' & -> & _). auto.
    - apply whileOpts_leaf in H; [subst r; auto|].
      simpl. destruct (extendsSequelizeModel m); reflexivity. }
  destruct Hk as [Ht Ha]. unfold rewritable. now rewrite Ht, Hm, Hf.
Qed.

(** The loop run on what an earlier run left does what it does on the
    original value. *)
Lemma whileOpts_again (n : nat) (p q : SequelizeAttributes) (v r : value) :
  whileOpts n p v = Ok r → ∀ m, whileOpts m q r = whileOpts m q v.
Proof.
  revert v r. induction n as [|n IH]; intros v r H m.
  { rewrite whileOpts_unfold in H. destruct (truthy v); [discriminate|].
    now injection H as <-. }
  rewrite whileOpts_unfold in H. destruct (truthy v) eqn:Tv; [|now injection H as <-].
  apply bind_Ok_inv in H as (v1 & Hb & H).
  apply bind_Ok_inv in H as (below & Hbelow & [= <-]).
  apply loopBody_Ok in Hb as [[Hf ->]|(fs & x & -> & Hl & Ht & Hr & ->)].
  { now rewrite Hf. }
  rewrite getProp_assign_eq in *.
  set (inc := getProp (VObj fs) "include") in *.
  rewrite (rewriteInclude_truthy p inc x Hr Ht). cbn [setProp].
  rewrite assign_assign.
  assert (Hgr : getProp (VObj (assign "include" below fs)) "include" = below)
    by apply getProp_assign_eq.
  destruct m as [|m]; [reflexivity|].
  rewrite (whileOpts_unfold (S m) q (VObj (assign "include" below fs))),
          (whileOpts_unfold (S m) q (VObj fs)).
  cbn [truthy]. unfold loopBody. rewrite Hgr. fold inc. rewrite Ht.
  pose proof (rewriteInclude_Ok p inc x Hr) as [(-> & Hnr & Hna)|(_ & _ & Hleaf)].
  - (* the entry was left alone and entered *)
    destruct (whileOpts_kind n p inc below Hbelow) as (Htb & Hab & Hrb).
    rewrite Htb, Ht.
    assert (Hskip : ∀ y, isArray y = false → rewritable y = false →
                         rewriteInclude q y = Ok y).
    { intros y Hy1 Hy2. destruct y; try discriminate;
        now apply addAttributesToInclude_skip. }
    rewrite (Hskip below), (Hskip inc) by congruence.
    unfold_result. cbn [setProp]. rewrite assign_assign.
    rewrite (assign_unchanged "include" inc fs Hl).
    rewrite Hgr. fold inc. rewrite (IH inc below Hbelow m).
    destruct (whileOpts m q inc) as [X| |]; try reflexivity.
    rewrite Htb, Ht. cbn [setProp]. now rewrite assign_assign.
  - (* the entry was rewritten, or is a collection *)
    apply whileOpts_leaf in Hbelow; [|exact Hleaf]. subst below.
    rewrite (rewriteInclude_truthy p inc x Hr Ht).
    rewrite (rewriteInclude_again p q inc x Hr).
    destruct (rewriteInclude q inc) as [y| |]; unfold_result; try reflexivity.
    cbn [setProp]. now rewrite assign_assign.
Qed.

(** Writing a top-level property other than [include] before the loop or
    after it comes to the same. *)
Lemma whileOpts_assign (n : nat) (a : SequelizeAttributes) (fs : Obj)
    (k : string) (x : value) :
  k ≠ "include" →
  whileOpts n a (VObj (assign k x fs))
  = (λ r, setProp r k x) <$> whileOpts n a (VObj fs).
Proof.
  intros Hk. rewrite !whileOpts_unfold. cbn [truthy].
  destruct n as [|n]; [reflexivity|].
  unfold loopBody. rewrite getProp_assign_ne by exact Hk.
  destruct (truthy (getProp (VObj fs) "include")) eqn:Ht.
  - destruct (truthy_include_inv _ Ht) as (fs' & [= <-] & Hl).
    destruct (rewriteInclude a (getProp (VObj fs) "include")) as [y| |];
      unfold_result; try reflexivity.
    cbn [setProp]. rewrite !getProp_assign_eq.
    destruct (whileOpts n a y) as [below| |]; try reflexivity.
    destruct (truthy y); cbn [setProp]; rewrite ?assign_assign; f_equal; f_equal.
    + symmetry. apply assign_comm; [exact Hk | eauto].
    + symmetry. apply assign_comm; [exact Hk | eauto].
  - unfold_result. rewrite getProp_assign_ne by exact Hk.
    rewrite !whileOpts_falsy by exact Ht. now rewrite Ht.
Qed.

(** X8: the preprocessing writes into the caller's options object; handed
    that object again, for the same or another model and policy, it yields
    what it yields on the options as first given.  In particular it leaves
    options it has produced as they are. *)
Theorem X8_processed_options_reusable (this : ModelClass)
    (a : option SequelizeAttributes) (o : Obj) (r : value) :
  getAttributesDeep this a (Some o) = Ok r →
  ∃ o', r = VObj o'
        ∧ (∀ this' a', getAttributesDeep this' a' (Some o')
                       = getAttributesDeep this' a' (Some o))
        ∧ getAttributesDeep this a (Some o') = Ok (VObj o').
Proof.
  intros H.
  assert (Hall : ∃ o', r = VObj o'
            ∧ ∀ this' a', getAttributesDeep this' a' (Some o')
                          = getAttributesDeep this' a' (Some o)).
  { revert H. unfold getAttributesDeep. cbn [anyOf truthy setProp].
    set (P := defaultArg WithIndexes a).
    set (n := S (includeDepth _)). intros H.
    destruct (whileOpts_VObj _ _ _ _ H) as (o' & -> & _).
    exists o'. split; [reflexivity|]. intros this' a'.
    set (Q := defaultArg WithIndexes a').
    set (xq := stringArray (filterAttributes this' (Some Q))).
    assert (H' : whileOpts n P (VObj (assign "attributes" xq o))
                 = Ok (VObj (assign "attributes" xq o'))).
    { rewrite <- (assign_assign "attributes"
                    (stringArray (filterAttributes this (Some P))) xq o).
      rewrite whileOpts_assign by discriminate. now rewrite H. }
    pose proof (whileOpts_again n P Q _ _ H') as Hagain.
    set (R' := VObj (assign "attributes" xq o')) in *.
    set (V' := VObj (assign "attributes" xq o)) in *.
    rewrite (whileOpts_budget (S (includeDepth R'))
               (S (Nat.max (includeDepth R') (includeDepth V'))) Q R') by lia.
    rewrite (whileOpts_budget (S (includeDepth V'))
               (S (Nat.max (includeDepth R') (includeDepth V'))) Q V') by lia.
    apply Hagain. }
  destruct Hall as (o' & -> & Hre). exists o'.
  split; [reflexivity|]. split; [exact Hre|]. now rewrite Hre.
Qed.

Lemma X8_witness :
  ∃ o', getAttributesDeep Role (Some WithoutIndexes) (Some includeWithWhere)
        = Ok (VObj o')
        ∧ getAttributesDeep User (Some WithIndexes) (Some o')
          = getAttributesDeep User (Some WithIndexes) (Some includeWithWhere).
Proof.
  destruct (X8_processed_options_reusable Role (Some WithoutIndexes)
              includeWithWhere _ eq_refl) as (o' & Ho' & Hre & _).
  exists o'. split; [|apply Hre].
  rewrite <- Ho'. reflexivity.
Defined.

(** ** How deep the rewriting goes *)

Lemma whileOpts_include_leaf (n : nat) (a : SequelizeAttributes) (v r x : value) :
  whileOpts n a v = Ok r →
  truthy (getProp v "include") = true →
  rewriteInclude a (getProp v "include") = Ok x →
  truthy (getProp x "include") = false →
  getProp r "include" = x.
Proof.
  intros H Ht Hx Hleaf.
  destruct (truthy_include_inv v Ht) as (fs & -> & Hl).
  rewrite whileOpts_unfold in H. cbn [truthy] in H.
  destruct n as [|n]; [discriminate|].
  unfold loopBody in H. rewrite Ht, Hx in H. unfold_result.
  cbn [setProp] in H. rewrite getProp_assign_eq in H.
  destruct (whileOpts n a x) as [below| |] eqn:Hb; try discriminate.
  apply whileOpts_leaf in Hb; [|exact Hleaf]. subst below.
  injection H as <-. destruct (truthy x); cbn [setProp]; now rewrite getProp_assign_eq.
Qed.

Lemma whileOpts_descend (d n : nat) (p : SequelizeAttributes) (v r : value)
    (m : ModelClass) :
  entered d v →
  namesModel (descend (S d) v) m →
  extendsSequelizeModel m = true →
  whileOpts n p v = Ok r →
  descend (S d) r = rewrittenInclude m p.
Proof.
  revert n v r. induction d as [|d IH]; intros n v r He Hn Hm H.
  - simpl in *.
    assert (Ht : truthy (getProp v "include") = true)
      by (destruct Hn as [->|(fs & -> & _)]; reflexivity).
    eapply whileOpts_include_leaf; [exact H | exact Ht | | reflexivity].
    destruct Hn as [Hv|(fs & Hv & Hl)]; rewrite Hv; simpl.
    + now apply addAttributesToInclude_model.
    + now apply addAttributesToInclude_descriptor.
  - destruct He as (Ht & Ha & Hr & He).
    destruct (truthy_include_inv v Ht) as (fs & -> & Hl).
    set (inc := getProp (VObj fs) "include") in *.
    rewrite whileOpts_unfold in H. cbn [truthy] in H.
    destruct n as [|n]; [discriminate|].
    unfold loopBody in H. fold inc in H. rewrite Ht in H.
    assert (Hskip : rewriteInclude p inc = Ok inc).
    { destruct inc; try discriminate; now apply addAttributesToInclude_skip. }
    rewrite Hskip in H. unfold_result. cbn [setProp] in H.
    rewrite getProp_assign_eq in H.
    destruct (whileOpts n p inc) as [below| |] eqn:Hb; try discriminate.
    rewrite Ht in H. injection H as <-. cbn [setProp].
    change (descend (S (S d)) ?x) with (descend (S d) (getProp x "include")).
    rewrite getProp_assign_eq.
    exact (IH n inc below He Hn Hm Hb).
Qed.

(** X11: the loop does rewrite nested includes along a chain of single
    include objects that carry no [model] of their own (association-style
    includes): when the caller's options lead, through [d] such objects, to
    an include naming a model class deriving from [SequelizeModel], the
    options handed over hold [{ model, attributes }] at that same depth, with
    the model's list under the same policy. *)
Theorem X11_nested_rewritten_along_chain (d : nat) (this : ModelClass)
    (a : option SequelizeAttributes) (o : Obj) (r : value) (m : ModelClass) :
  entered d (VObj o) →
  namesModel (descend (S d) (VObj o)) m →
  extendsSequelizeModel m = true →
  getAttributesDeep this a (Some o) = Ok r →
  descend (S d) r = rewrittenInclude m (defaultArg WithIndexes a).
Proof.
  intros He Hn Hm. unfold getAttributesDeep. cbn [anyOf truthy setProp].
  set (root := VObj (assign "attributes" _ o)).
  assert (Hinc : getProp root "include" = getProp (VObj o) "include")
    by (unfold root; now rewrite getProp_assign_ne by discriminate).
  apply whileOpts_descend; [| |exact Hm].
  - destruct d as [|d]; [exact I|]. simpl in *. now rewrite Hinc.
  - simpl in *. now rewrite Hinc.
Qed.

Lemma X11_witness :
  entered 1 (VObj [("include", associationWithInclude)])
  ∧ ∃ r, getAttributesDeep Role (Some WithoutIndexes)
           (Some [("include", associationWithInclude)]) = Ok r
         ∧ descend 2 r = rewrittenInclude User WithoutIndexes.
Proof.
  assert (He : entered 1 (VObj [("include", associationWithInclude)]))
    by (simpl; repeat split; reflexivity).
  split; [exact He|].
  eexists. split; [reflexivity|].
  exact (X11_nested_rewritten_along_chain 1 Role (Some WithoutIndexes)
           [("include", associationWithInclude)] _ User He
           (or_introl eq_refl) eq_refl eq_refl).
Defined.
